(** * cybox.common.properties: typed properties and their map/tree forms

    A shallow embedding of [src/cybox/common/properties.py] (Python 2):
    the [BaseProperty] class, its thirteen subclasses, equality,
    plainness, truthiness and the two serialization protocols
    ([to_dict]/[from_dict] and [to_obj]/[from_obj]).

    Python objects are records, attribute assignment is functional
    update, and every function that can raise returns a [result]. *)

From Stdlib Require Import ZArith NArith QArith Bool Ascii String List.
From stdpp Require Import base option strings gmap fin_maps.

Set Warnings "-register-all".
Local Open Scope string_scope.
Local Open Scope Z_scope.

(** ** Python values *)

(** A naive [datetime.datetime] (no tzinfo). *)
Record datetime := mk_datetime {
  year : N; month : N; day : N;
  hour : N; minute : N; second : N; microsecond : N
}.

(** A Python [float]: not-a-number, an infinity, or a finite number,
    kept as the rational it denotes. *)
Inductive pyfloat :=
| FNaN
| FInf (negative : bool)
| FFinite (q : Q).

(** The Python values a property field can hold.  (A [dict] given to
    [from_dict] is a [Mapping] of [map_form] below.) *)
Inductive pyval :=
| VNone
| VBool (b : bool)
| VInt (z : Z)
| VFloat (f : pyfloat)
| VStr (s : string)
| VDateTime (d : datetime)
| VList (l : list pyval).

(** The exceptions the module can raise.  [ValueError] is what the
    specification calls a ValueConversion error. *)
Inductive exn :=
| ValueError
| TypeError
| AttributeError
| NameError
| NotImplementedError
| OverflowError.

Inductive result (A : Type) :=
| Ok (a : A)
| Raise (e : exn).
Arguments Ok {A} a.
Arguments Raise {A} e.

(** Sequencing: an exception raised by the first computation propagates. *)
#[export] Instance result_bind : MBind result := fun A B k r =>
  match r with
  | Ok a => k a
  | Raise e => Raise e
  end.
#[export] Instance result_ret : MRet result := fun A a => Ok a.

(** [map f l] for an [f] that can raise: Python 2's [map] is eager, so
    the first failing element aborts the whole call. *)
Fixpoint map_raising {A B} (f : A -> result B) (l : list A) : result (list B) :=
  match l with
  | [] => Ok []
  | x :: l' => y ← f x; ys ← map_raising f l'; Ok (y :: ys)
  end.

(** [v is None] *)
Definition is_None (v : pyval) : bool :=
  match v with VNone => true | _ => false end.

(** [isinstance(v, list)] *)
Definition is_list (v : pyval) : bool :=
  match v with VList _ => true | _ => false end.

(** Truth value of a Python object ([bool(v)], [not v]). *)
Definition truthy (v : pyval) : bool :=
  match v with
  | VNone => false
  | VBool b => b
  | VInt z => negb (z =? 0)
  | VFloat FNaN | VFloat (FInf _) => true
  | VFloat (FFinite q) => negb (Qeq_bool q (inject_Z 0))
  | VStr s => negb (String.eqb s "")
  | VDateTime _ => true
  | VList l => match l with [] => false | _ => true end
  end.

Definition datetime_eqb (a b : datetime) : bool :=
  (year a =? year b)%N && (month a =? month b)%N && (day a =? day b)%N &&
  (hour a =? hour b)%N && (minute a =? minute b)%N &&
  (second a =? second b)%N && (microsecond a =? microsecond b)%N.

(** [a == b] on two floats: NaN equals nothing, itself included. *)
Definition float_eqb (a b : pyfloat) : bool :=
  match a, b with
  | FFinite p, FFinite q => Qeq_bool p q
  | FInf s, FInf t => Bool.eqb s t
  | _, _ => false
  end.

(** [a == z] for a float and an integer: the comparison is exact. *)
Definition float_eq_int (a : pyfloat) (z : Z) : bool :=
  match a with
  | FFinite q => Qeq_bool q (inject_Z z)
  | _ => false
  end.

(** Python's [a == b] on values.  [bool] is a subclass of [int], so
    [True == 1]; numbers compare by their value, and NaN is unequal to
    everything; values of unrelated types are unequal.  Lists are
    compared element by element with [==]: Python first tries object
    identity on the elements, which shows only for a list that holds
    the very same NaN object twice over, and values here have no
    identity. *)
Fixpoint py_eq (a b : pyval) : bool :=
  match a, b with
  | VNone, VNone => true
  | VBool x, VBool y => Bool.eqb x y
  | VBool x, VInt z => Z.b2z x =? z
  | VInt z, VBool y => z =? Z.b2z y
  | VInt x, VInt y => x =? y
  | VFloat f, VFloat g => float_eqb f g
  | VFloat f, VInt z => float_eq_int f z
  | VInt z, VFloat f => float_eq_int f z
  | VFloat f, VBool y => float_eq_int f (Z.b2z y)
  | VBool x, VFloat f => float_eq_int f (Z.b2z x)
  | VStr s, VStr t => String.eqb s t
  | VDateTime d, VDateTime e => datetime_eqb d e
  | VList la, VList lb =>
      (fix go (la lb : list pyval) : bool :=
         match la, lb with
         | [], [] => true
         | x :: xs, y :: ys => py_eq x y && go xs ys
         | _, _ => false
         end) la lb
  | _, _ => false
  end.

(** No NaN in a value, nor among the elements of a list: the values on
    which [==] is reflexive. *)
Fixpoint nan_free (v : pyval) : bool :=
  match v with
  | VFloat FNaN => false
  | VList l =>
      (fix go (l : list pyval) : bool :=
         match l with
         | [] => true
         | x :: xs => nan_free x && go xs
         end) l
  | _ => true
  end.

(** [isinstance(v, datetime)] *)
Definition is_datetime (v : pyval) : bool :=
  match v with VDateTime _ => true | _ => false end.

(** ** Builtins used by the module *)

Definition is_space (c : ascii) : bool :=
  match nat_of_ascii c with
  | 9%nat | 10%nat | 11%nat | 12%nat | 13%nat | 32%nat => true
  | _ => false
  end.

Definition digit_of (c : ascii) : option Z :=
  let n := nat_of_ascii c in
  if (48 <=? n)%nat && (n <=? 57)%nat then Some (Z.of_nat (n - 48)) else None.

Fixpoint digits_value (acc : Z) (l : list ascii) : option Z :=
  match l with
  | [] => Some acc
  | c :: l' =>
      match digit_of c with
      | Some d => digits_value (10 * acc + d) l'
      | None => None
      end
  end.

Fixpoint lstrip (l : list ascii) : list ascii :=
  match l with
  | c :: l' => if is_space c then lstrip l' else l
  | [] => []
  end.

Definition strip (l : list ascii) : list ascii :=
  rev (lstrip (rev (lstrip l))).

(** [int(s)] for a string: optional surrounding whitespace, an optional
    sign, then at least one decimal digit. *)
Definition int_of_string (s : string) : option Z :=
  match strip (list_ascii_of_string s) with
  | [] => None
  | c :: ds =>
      if Ascii.eqb c "-" then
        match ds with [] => None | _ => Z.opp <$> digits_value 0 ds end
      else if Ascii.eqb c "+" then
        match ds with [] => None | _ => digits_value 0 ds end
      else digits_value 0 (c :: ds)
  end.

(** The builtin [int(v)]; a finite float is truncated towards zero. *)
Definition py_int (v : pyval) : result pyval :=
  match v with
  | VInt z => Ok (VInt z)
  | VBool b => Ok (VInt (Z.b2z b))
  | VFloat FNaN => Raise ValueError
  | VFloat (FInf _) => Raise OverflowError
  | VFloat (FFinite q) => Ok (VInt (Z.quot (Qnum q) (Z.pos (Qden q))))
  | VStr s =>
      match int_of_string s with
      | Some z => Ok (VInt z)
      | None => Raise ValueError
      end
  | VNone | VDateTime _ | VList _ => Raise TypeError
  end.

Definition digit_char (n : N) : ascii :=
  ascii_of_N (48 + n mod 10).

(** The [w] low decimal digits of [n], zero padded. *)
Fixpoint pad (w : nat) (n : N) : string :=
  match w with
  | O => ""
  | S w' => pad w' (n / 10) +:+ String (digit_char n) ""
  end.

(** [datetime.isoformat()] of a naive timestamp. *)
Definition isoformat (d : datetime) : string :=
  pad 4 (year d) +:+ "-" +:+ pad 2 (month d) +:+ "-" +:+ pad 2 (day d) +:+
  "T" +:+ pad 2 (hour d) +:+ ":" +:+ pad 2 (minute d) +:+ ":" +:+
  pad 2 (second d) +:+
  (if (microsecond d =? 0)%N then "" else "." +:+ pad 6 (microsecond d)).

(** ** What the module imports from the rest of the repository *)

(** A Python [dict] with string keys. *)
Abbreviation dict := (gmap string pyval).

(** [d.get(k)]: the entry under [k], or [None]. *)
Definition dict_get (d : dict) (k : string) : pyval :=
  default VNone (d !! k).

(** Modelled from the spec: the tree node of [cybox.bindings.cybox_common],
    "an external tree-node object exposing get_<field>()/set_<field>()
    accessors per optional attribute and a single text-content
    accessor/mutator".  A node is the bag of attributes that were set on
    it; a getter of an attribute never set returns [None]. *)
Record binding_obj := mk_binding_obj { binding_attrs : gmap string pyval }.

Definition binding_get (field : string) (n : binding_obj) : pyval :=
  default VNone (binding_attrs n !! field).

Definition binding_set (field : string) (v : pyval) (n : binding_obj) : binding_obj :=
  mk_binding_obj (<[field := v]> (binding_attrs n)).

Definition get_valueOf_ := binding_get "valueOf_".
Definition get_id := binding_get "id".
Definition get_idref := binding_get "idref".
Definition get_datatype := binding_get "datatype".
Definition get_appears_random := binding_get "appears_random".
Definition get_is_obfuscated := binding_get "is_obfuscated".
Definition get_obfuscation_algorithm_ref := binding_get "obfuscation_algorithm_ref".
Definition get_is_defanged := binding_get "is_defanged".
Definition get_defanging_algorithm_ref := binding_get "defanging_algorithm_ref".
Definition get_refanging_transform_type := binding_get "refanging_transform_type".
Definition get_refanging_transform := binding_get "refanging_transform".

Definition set_valueOf_ := binding_set "valueOf_".
Definition set_id := binding_set "id".
Definition set_idref := binding_set "idref".
Definition set_appears_random := binding_set "appears_random".
Definition set_is_obfuscated := binding_set "is_obfuscated".
Definition set_obfuscation_algorithm_ref := binding_set "obfuscation_algorithm_ref".
Definition set_is_defanged := binding_set "is_defanged".
Definition set_defanging_algorithm_ref := binding_set "defanging_algorithm_ref".
Definition set_refanging_transform_type := binding_set "refanging_transform_type".
Definition set_refanging_transform := binding_set "refanging_transform".

(** The classes of [common_binding] the module refers to. *)
Inductive binding_class :=
| StringObjectPropertyType
| UnsignedLongObjectPropertyType
| IntegerObjectPropertyType
| PositiveIntegerObjectPropertyType
| UnsignedIntegerObjectPropertyType
| NonNegativeIntegerObjectPropertyType
| AnyURIObjectPropertyType
| HexBinaryObjectPropertyType
| DurationObjectPropertyType
| DateTimeObjectPropertyType
| DoubleObjectPropertyType
| FloatObjectPropertyType
| LongObjectPropertyType
| SimpleHashValueType.

(** The mixin [cybox.common.attribute_groups.PatternFieldGroup], which is
    not part of this module: its attributes and methods are an interface.
    [pattern_fields] is the state the mixin keeps on an entity; the five
    attributes [__eq__] reads are projections of it. *)
Class PatternFieldGroup := {
  pattern_fields : Type;
  (** the mixin's attributes on a freshly constructed entity *)
  PatternFieldGroup___init__ : pattern_fields;
  bit_mask : pattern_fields -> pyval;
  pattern_type : pattern_fields -> pyval;
  regex_syntax : pattern_fields -> pyval;
  has_changed : pattern_fields -> pyval;
  trend : pattern_fields -> pyval;
  PatternFieldGroup__conditions_equal : pattern_fields -> pattern_fields -> bool;
  PatternFieldGroup_is_plain : pattern_fields -> bool;
  PatternFieldGroup_to_obj : pattern_fields -> binding_obj -> binding_obj;
  PatternFieldGroup_to_dict : pattern_fields -> dict -> dict;
  PatternFieldGroup_from_obj : binding_obj -> pattern_fields -> pattern_fields;
  PatternFieldGroup_from_dict : dict -> pattern_fields -> pattern_fields
}.

(** What else the module calls: [dateutil.parser.parse], the two free
    functions of [cybox.utils], and the constructors of the binding
    classes. *)
Class Environment := {
  dateutil_parser_parse : pyval -> result datetime;
  normalize_to_xml : pyval -> pyval;
  denormalize_from_xml : pyval -> pyval;
  binding_new : binding_class -> binding_obj
}.

(** ** The classes of the module *)

Module Cls.
Inductive t :=
| BaseProperty
| String
| UnsignedLong
| Integer
| PositiveInteger
| UnsignedInteger
| NonNegativeInteger
| AnyURI
| HexBinary
| Duration
| DateTime
| Double
| Float
| Long.
End Cls.

(** The names bound at module level when a constructor runs: the imports
    and the classes, as the source spells them. *)
Definition module_globals : list string :=
  [ "datetime"; "dateutil"; "cybox"; "common_binding"; "PatternFieldGroup";
    "normalize_to_xml"; "denormalize_from_xml";
    "BaseProperty"; "String"; "UnsignedLong"; "Integer"; "PositiveInteger";
    "UnsignedInteger"; "NonNegativeInteger"; "AnyURI"; "HexBinary";
    "Duration"; "DateTime"; "Double"; "Float"; "Long";
    "BINDING_CLASS_MAPPING" ].

(** The name each subclass's [__init__] looks up to reach the base
    initializer (source lines 283-418). *)
Definition init_base_name (c : Cls.t) : string :=
  match c with
  | Cls.UnsignedInteger | Cls.NonNegativeInteger => "BaseProeprty"
  | _ => "BaseProperty"
  end.

(** The [datatype] each subclass's [__init__] assigns. *)
Definition init_datatype (c : Cls.t) : pyval :=
  match c with
  | Cls.BaseProperty => VNone
  | Cls.String => VStr "string"
  | Cls.UnsignedLong => VStr "unsignedLong"
  | Cls.Integer => VStr "integer"
  | Cls.PositiveInteger => VStr "positiveInteger"
  | Cls.UnsignedInteger => VStr "unsignedInt"
  | Cls.NonNegativeInteger => VStr "nonNegativeInteger"
  | Cls.AnyURI => VStr "anyURI"
  | Cls.HexBinary => VStr "hexBinary"
  | Cls.Duration => VStr "duration"
  | Cls.DateTime => VStr "dateTime"
  | Cls.Double => VStr "double"
  | Cls.Float => VStr "float"
  | Cls.Long => VStr "long"
  end.

Definition _get_binding_class (c : Cls.t) : result binding_class :=
  match c with
  | Cls.BaseProperty => Raise NotImplementedError
  | Cls.String => Ok StringObjectPropertyType
  | Cls.UnsignedLong => Ok UnsignedLongObjectPropertyType
  | Cls.Integer => Ok IntegerObjectPropertyType
  | Cls.PositiveInteger => Ok PositiveIntegerObjectPropertyType
  | Cls.UnsignedInteger => Ok UnsignedIntegerObjectPropertyType
  | Cls.NonNegativeInteger => Ok NonNegativeIntegerObjectPropertyType
  | Cls.AnyURI => Ok AnyURIObjectPropertyType
  | Cls.HexBinary => Ok HexBinaryObjectPropertyType
  | Cls.Duration => Ok DurationObjectPropertyType
  | Cls.DateTime => Ok DateTimeObjectPropertyType
  | Cls.Double => Ok DoubleObjectPropertyType
  | Cls.Float => Ok FloatObjectPropertyType
  | Cls.Long => Ok LongObjectPropertyType
  end.

(** Whether the lookup of that name succeeds. *)
Definition base_name_bound (c : Cls.t) : bool :=
  existsb (String.eqb (init_base_name c)) module_globals.

(** [BaseProperty.__init__(self, value=None)]: binding of the call's
    positional and keyword arguments to the one parameter. *)
Definition bind_init_args (args : list pyval) (kwargs : list (string * pyval))
  : result pyval :=
  match args, kwargs with
  | [], [] => Ok VNone
  | [v], [] => Ok v
  | [], [(k, v)] => if String.eqb k "value" then Ok v else Raise TypeError
  | _, _ => Raise TypeError
  end.

Section Properties.
Context {PFG : PatternFieldGroup} {Env : Environment}.

(** ** Value coercion *)

(** [BaseProperty._parse_value] *)
Definition BaseProperty__parse_value (value : pyval) : result pyval :=
  Ok value.

(** [UnsignedLong._parse_value] *)
Definition UnsignedLong__parse_value (value : pyval) : result pyval :=
  if is_None value then Ok VNone else py_int value.

(** [Integer._parse_value] *)
Definition Integer__parse_value (value : pyval) : result pyval :=
  if is_None value then Ok VNone else py_int value.

(** [PositiveInteger._parse_value] *)
Definition PositiveInteger__parse_value (value : pyval) : result pyval :=
  if is_None value then Ok VNone else py_int value.

(** [NonNegativeInteger._parse_value] *)
Definition NonNegativeInteger__parse_value (value : pyval) : result pyval :=
  if is_None value then Ok VNone else py_int value.

(** [DateTime._parse_value] *)
Definition DateTime__parse_value (value : pyval) : result pyval :=
  if negb (truthy value) then Ok VNone
  else match value with
       | VDateTime _ => Ok value
       | _ => d ← dateutil_parser_parse value; Ok (VDateTime d)
       end.

(** Method resolution of [self._parse_value]: [UnsignedInteger] and the
    pass-through classes define none and inherit the base one. *)
Definition _parse_value (c : Cls.t) : pyval -> result pyval :=
  match c with
  | Cls.UnsignedLong => UnsignedLong__parse_value
  | Cls.Integer => Integer__parse_value
  | Cls.PositiveInteger => PositiveInteger__parse_value
  | Cls.NonNegativeInteger => NonNegativeInteger__parse_value
  | Cls.DateTime => DateTime__parse_value
  | _ => BaseProperty__parse_value
  end.

(** [BaseProperty._serialize_value] *)
Definition BaseProperty__serialize_value (value : pyval) : result pyval :=
  Ok value.

(** [DateTime._serialize_value]: [value.isoformat()] exists on a
    timestamp only. *)
Definition DateTime__serialize_value (value : pyval) : result pyval :=
  if negb (truthy value) then Ok VNone
  else match value with
       | VDateTime d => Ok (VStr (isoformat d))
       | _ => Raise AttributeError
       end.

(** Method resolution of [self.__class__._serialize_value]. *)
Definition _serialize_value (c : Cls.t) : pyval -> result pyval :=
  match c with
  | Cls.DateTime => DateTime__serialize_value
  | _ => BaseProperty__serialize_value
  end.

(** ** Instances *)

(** An instance of [BaseProperty] or of a subclass: its class and its
    attributes; [pattern] holds the attributes of the mixin. *)
Record BaseProperty := mk_BaseProperty {
  cls : Cls.t;
  _value : pyval;
  id_ : pyval;
  idref : pyval;
  datatype : pyval;
  appears_random : pyval;
  is_obfuscated : pyval;
  obfuscation_algorithm_ref : pyval;
  is_defanged : pyval;
  defanging_algorithm_ref : pyval;
  refanging_transform_type : pyval;
  refanging_transform : pyval;
  pattern : pattern_fields
}.

(** The [value] property's getter. *)
Definition value (self : BaseProperty) : pyval := _value self.

(** [self._value = v] *)
Definition with__value (v : pyval) (self : BaseProperty) : BaseProperty :=
  mk_BaseProperty (cls self) v (id_ self) (idref self) (datatype self)
    (appears_random self) (is_obfuscated self) (obfuscation_algorithm_ref self)
    (is_defanged self) (defanging_algorithm_ref self)
    (refanging_transform_type self) (refanging_transform self) (pattern self).

(** [self.id_ = v] *)
Definition with_id_ (v : pyval) (self : BaseProperty) : BaseProperty :=
  mk_BaseProperty (cls self) (_value self) v (idref self) (datatype self)
    (appears_random self) (is_obfuscated self) (obfuscation_algorithm_ref self)
    (is_defanged self) (defanging_algorithm_ref self)
    (refanging_transform_type self) (refanging_transform self) (pattern self).

(** [self.datatype = v] *)
Definition with_datatype (v : pyval) (self : BaseProperty) : BaseProperty :=
  mk_BaseProperty (cls self) (_value self) (id_ self) (idref self) v
    (appears_random self) (is_obfuscated self) (obfuscation_algorithm_ref self)
    (is_defanged self) (defanging_algorithm_ref self)
    (refanging_transform_type self) (refanging_transform self) (pattern self).

(** What the [value] setter stores for an assigned [value_] (source
    lines 45-48): a list is parsed element by element, anything else as
    one value. *)
Definition parsed_value (c : Cls.t) (value_ : pyval) : result pyval :=
  match value_ with
  | VList l => parsed ← map_raising (_parse_value c) l; Ok (VList parsed)
  | _ => _parse_value c value_
  end.

(** The [value] property's setter (source lines 39-48). *)
Definition value_setter (self : BaseProperty) (value_ : pyval) : result BaseProperty :=
  parsed ← parsed_value (cls self) value_;
  Ok (with__value parsed self).

(** The [serialized_value] property (source lines 59-64). *)
Definition serialized_value (self : BaseProperty) : result pyval :=
  match value self with
  | VList l =>
      serialized ← map_raising (_serialize_value (cls self)) l;
      Ok (VList serialized)
  | v => _serialize_value (cls self) v
  end.

(** [BaseProperty.__init__] run on a new instance of class [c]
    (source lines 13-27). *)
Definition BaseProperty___init__ (c : Cls.t) (args : list pyval)
    (kwargs : list (string * pyval)) : result BaseProperty :=
  value_ ← bind_init_args args kwargs;
  let self :=
    mk_BaseProperty c VNone VNone VNone VNone VNone VNone VNone VNone VNone
      VNone VNone PatternFieldGroup___init__ in
  self ← value_setter self value_;
  Ok (mk_BaseProperty c (_value self) VNone VNone VNone VNone VNone VNone
        VNone VNone VNone VNone (pattern self)).

(** Calling class [c] with positional and keyword arguments runs the
    [__init__] of [c].  Every subclass
    first looks up its base initializer by name, calls it, and then
    assigns its own [datatype]. *)
Definition __init__ (c : Cls.t) (args : list pyval)
    (kwargs : list (string * pyval)) : result BaseProperty :=
  match c with
  | Cls.BaseProperty => BaseProperty___init__ c args kwargs
  | _ =>
      if base_name_bound c then
        self ← BaseProperty___init__ c args kwargs;
        Ok (with_datatype (init_datatype c) self)
      else Raise NameError
  end.

(** ** Plainness, truthiness, equality *)

(** [BaseProperty.is_plain] (source lines 107-130) *)
Definition is_plain (self : BaseProperty) : bool :=
  is_None (id_ self) &&
  is_None (idref self) &&
  is_None (appears_random self) &&
  is_None (is_obfuscated self) &&
  is_None (obfuscation_algorithm_ref self) &&
  is_None (is_defanged self) &&
  is_None (defanging_algorithm_ref self) &&
  is_None (refanging_transform_type self) &&
  is_None (refanging_transform self) &&
  PatternFieldGroup_is_plain (pattern self).

(** [BaseProperty.__nonzero__] (source lines 140-143) *)
Definition __nonzero__ (self : BaseProperty) : bool :=
  negb (is_plain self) || negb (is_None (value self)).

(** A Python object that can stand on either side of [==]. *)
Inductive pyobj :=
| PyValue (v : pyval)
| PyProperty (p : BaseProperty).

(** [BaseProperty.__eq__] (source lines 76-102).  When [other] is not a
    property and [self] is not plain, the first conjunct reads
    [other.value], an attribute no bare value has. *)
Definition __eq__ (self : BaseProperty) (other : pyobj) : result bool :=
  match other with
  | PyValue v =>
      if is_plain self then Ok (py_eq (value self) v)
      else Raise AttributeError
  | PyProperty other =>
      Ok (py_eq (value self) (value other) &&
          py_eq (id_ self) (id_ other) &&
          py_eq (idref self) (idref other) &&
          py_eq (datatype self) (datatype other) &&
          py_eq (appears_random self) (appears_random other) &&
          py_eq (is_obfuscated self) (is_obfuscated other) &&
          py_eq (obfuscation_algorithm_ref self) (obfuscation_algorithm_ref other) &&
          py_eq (is_defanged self) (is_defanged other) &&
          py_eq (defanging_algorithm_ref self) (defanging_algorithm_ref other) &&
          py_eq (refanging_transform_type self) (refanging_transform_type other) &&
          py_eq (refanging_transform self) (refanging_transform other) &&
          PatternFieldGroup__conditions_equal (pattern self) (pattern other) &&
          py_eq (bit_mask (pattern self)) (bit_mask (pattern other)) &&
          py_eq (pattern_type (pattern self)) (pattern_type (pattern other)) &&
          py_eq (regex_syntax (pattern self)) (regex_syntax (pattern other)) &&
          py_eq (has_changed (pattern self)) (has_changed (pattern other)) &&
          py_eq (trend (pattern self)) (trend (pattern other)))
  end.

(** [a == b]: the left operand's [__eq__], or, when the left operand is
    a builtin value that does not know the right one, the reflected
    [__eq__] of the property on the right.  A [datetime] on the left
    does not defer: its own comparison answers [False] to [==] with
    anything that is not a date. *)
Definition py_equals (a b : pyobj) : result bool :=
  match a, b with
  | PyProperty p, _ => __eq__ p b
  | PyValue (VDateTime _), PyProperty _ => Ok false
  | PyValue v, PyProperty p => __eq__ p (PyValue v)
  | PyValue v, PyValue w => Ok (py_eq v w)
  end.

(** [BaseProperty.__ne__] *)
Definition __ne__ (self : BaseProperty) (other : pyobj) : result bool :=
  b ← __eq__ self other; Ok (negb b).

(** ** Map form *)

(** What [to_dict] returns and [from_dict] receives: a bare value or a
    mapping. *)
Inductive map_form :=
| Scalar (v : pyval)
| Mapping (m : dict).

Definition map_form_truthy (a : map_form) : bool :=
  match a with
  | Scalar v => truthy v
  | Mapping m => negb (bool_decide (m = ∅))
  end.

(** [if v is not None: attr_dict[k] = v] *)
Definition put_if_set (k : string) (v : pyval) (attr_dict : dict) : dict :=
  if is_None v then attr_dict else <[k := v]> attr_dict.

(** [BaseProperty.to_dict] (source lines 178-211) *)
Definition to_dict (self : BaseProperty) : result map_form :=
  if is_plain self then
    serialized ← serialized_value self; Ok (Scalar serialized)
  else
    attr_dict ←
      (if is_None (value self) then Ok (∅ : dict)
       else serialized ← serialized_value self;
            Ok (<["value" := serialized]> (∅ : dict)));
    let attr_dict := put_if_set "id" (id_ self) attr_dict in
    let attr_dict := put_if_set "idref" (idref self) attr_dict in
    let attr_dict := put_if_set "appears_random" (appears_random self) attr_dict in
    let attr_dict := put_if_set "is_obfuscated" (is_obfuscated self) attr_dict in
    let attr_dict :=
      put_if_set "obfuscation_algorithm_ref" (obfuscation_algorithm_ref self) attr_dict in
    let attr_dict := put_if_set "is_defanged" (is_defanged self) attr_dict in
    let attr_dict :=
      put_if_set "defanging_algorithm_ref" (defanging_algorithm_ref self) attr_dict in
    let attr_dict :=
      put_if_set "refanging_transform_type" (refanging_transform_type self) attr_dict in
    let attr_dict :=
      put_if_set "refanging_transform" (refanging_transform self) attr_dict in
    Ok (Mapping (PatternFieldGroup_to_dict (pattern self) attr_dict)).

(** [BaseProperty._populate_from_dict] (source lines 256-278) *)
Definition _populate_from_dict (self : BaseProperty) (attr_dict : map_form)
  : result BaseProperty :=
  match attr_dict with
  | Scalar v => value_setter self v
  | Mapping m =>
      self ← value_setter self (dict_get m "value");
      Ok (mk_BaseProperty (cls self) (_value self)
            (dict_get m "id")
            (dict_get m "idref")
            (dict_get m "datatype")
            (dict_get m "appears_random")
            (dict_get m "is_obfuscated")
            (dict_get m "obfuscation_algorithm_ref")
            (dict_get m "is_defanged")
            (dict_get m "defanging_algorithm_ref")
            (dict_get m "refanging_transform_type")
            (dict_get m "refanging_transform")
            (PatternFieldGroup_from_dict m (pattern self)))
  end.

(** [BaseProperty.from_dict], called on class [c] (source lines 243-254);
    the result [None] is Python's [None]. *)
Definition from_dict (c : Cls.t) (attr_dict : map_form)
  : result (option BaseProperty) :=
  if negb (map_form_truthy attr_dict) then Ok None
  else
    attr ← __init__ c [] [];
    attr ← _populate_from_dict attr attr_dict;
    Ok (Some attr).

(** ** Tree form *)

(** What [from_obj] receives: a node, or some other Python value. *)
Inductive obj_form :=
| ObjValue (v : pyval)
| ObjNode (n : binding_obj).

(** A binding object defines neither [__nonzero__] nor [__len__]. *)
Definition obj_form_truthy (a : obj_form) : bool :=
  match a with
  | ObjValue v => truthy v
  | ObjNode _ => true
  end.

(** [if v is not None: attr_obj.set_<field>(v)] *)
Definition call_if_set (setter : pyval -> binding_obj -> binding_obj)
    (v : pyval) (attr_obj : binding_obj) : binding_obj :=
  if is_None v then attr_obj else setter v attr_obj.

(** [BaseProperty.to_obj] (source lines 145-176) *)
Definition to_obj (self : BaseProperty) : result binding_obj :=
  AttrBindingClass ← _get_binding_class (cls self);
  let attr_obj := binding_new AttrBindingClass in
  serialized ← serialized_value self;
  let attr_obj := set_valueOf_ (normalize_to_xml serialized) attr_obj in
  let attr_obj := call_if_set set_id (id_ self) attr_obj in
  let attr_obj := call_if_set set_idref (idref self) attr_obj in
  let attr_obj := call_if_set set_appears_random (appears_random self) attr_obj in
  let attr_obj := call_if_set set_is_obfuscated (is_obfuscated self) attr_obj in
  let attr_obj :=
    call_if_set set_obfuscation_algorithm_ref (obfuscation_algorithm_ref self) attr_obj in
  let attr_obj := call_if_set set_is_defanged (is_defanged self) attr_obj in
  let attr_obj :=
    call_if_set set_defanging_algorithm_ref (defanging_algorithm_ref self) attr_obj in
  let attr_obj :=
    call_if_set set_refanging_transform_type (refanging_transform_type self) attr_obj in
  let attr_obj :=
    call_if_set set_refanging_transform (refanging_transform self) attr_obj in
  Ok (PatternFieldGroup_to_obj (pattern self) attr_obj).

(** [BaseProperty._populate_from_obj] (source lines 227-241); a value
    that is not a node has no [get_valueOf_]. *)
Definition _populate_from_obj (self : BaseProperty) (attr_obj : obj_form)
  : result BaseProperty :=
  match attr_obj with
  | ObjValue _ => Raise AttributeError
  | ObjNode n =>
      self ← value_setter self (denormalize_from_xml (get_valueOf_ n));
      Ok (mk_BaseProperty (cls self) (_value self)
            (get_id n)
            (get_idref n)
            (get_datatype n)
            (get_appears_random n)
            (get_is_obfuscated n)
            (get_obfuscation_algorithm_ref n)
            (get_is_defanged n)
            (get_defanging_algorithm_ref n)
            (get_refanging_transform_type n)
            (get_refanging_transform n)
            (PatternFieldGroup_from_obj n (pattern self)))
  end.

(** [BaseProperty.from_obj], called on class [c] (source lines 213-225) *)
Definition from_obj (c : Cls.t) (attr_obj : obj_form)
  : result (option BaseProperty) :=
  if negb (obj_form_truthy attr_obj) then Ok None
  else
    attr ← __init__ c [] [];
    attr ← _populate_from_obj attr attr_obj;
    Ok (Some attr).

(** ** Notions the properties below are stated with *)

(** The instance a constructor of class [c] leaves behind when the
    setter stored [v]: every attribute but [value] and [datatype] unset. *)
Definition new_instance (c : Cls.t) (v : pyval) : BaseProperty :=
  mk_BaseProperty c v VNone VNone (init_datatype c) VNone VNone VNone VNone
    VNone VNone VNone PatternFieldGroup___init__.

(** Two properties agree on [value], on the identity, obfuscation and
    defanging fields and on the pattern fields: every conjunct of
    [__eq__] but the one on [datatype]. *)
Definition agree_except_datatype (self other : BaseProperty) : bool :=
  py_eq (value self) (value other) &&
  py_eq (id_ self) (id_ other) &&
  py_eq (idref self) (idref other) &&
  py_eq (appears_random self) (appears_random other) &&
  py_eq (is_obfuscated self) (is_obfuscated other) &&
  py_eq (obfuscation_algorithm_ref self) (obfuscation_algorithm_ref other) &&
  py_eq (is_defanged self) (is_defanged other) &&
  py_eq (defanging_algorithm_ref self) (defanging_algorithm_ref other) &&
  py_eq (refanging_transform_type self) (refanging_transform_type other) &&
  py_eq (refanging_transform self) (refanging_transform other) &&
  PatternFieldGroup__conditions_equal (pattern self) (pattern other) &&
  py_eq (bit_mask (pattern self)) (bit_mask (pattern other)) &&
  py_eq (pattern_type (pattern self)) (pattern_type (pattern other)) &&
  py_eq (regex_syntax (pattern self)) (regex_syntax (pattern other)) &&
  py_eq (has_changed (pattern self)) (has_changed (pattern other)) &&
  py_eq (trend (pattern self)) (trend (pattern other)).

(** The pattern fields [__eq__] reads hold no NaN. *)
Definition pattern_nan_free (pf : pattern_fields) : bool :=
  nan_free (bit_mask pf) && nan_free (pattern_type pf) &&
  nan_free (regex_syntax pf) && nan_free (has_changed pf) &&
  nan_free (trend pf).


(** The entry a mapping holds for an optional field: none when unset. *)
Definition entry_if_set (v : pyval) : option pyval :=
  if is_None v then None else Some v.

(** The keys [to_dict] and [_populate_from_dict] use themselves. *)
Definition base_keys : list string :=
  [ "value"; "datatype"; "id"; "idref"; "appears_random"; "is_obfuscated";
    "obfuscation_algorithm_ref"; "is_defanged"; "defanging_algorithm_ref";
    "refanging_transform_type"; "refanging_transform" ].

(** The timestamps a stored value holds, alone or as elements of a list. *)
Definition timestamps (v : pyval) : list datetime :=
  match v with
  | VDateTime d => [d]
  | VList l =>
      flat_map (fun x => match x with VDateTime d => [d] | _ => [] end) l
  | _ => []
  end.

(** [type(p).from_dict(p.to_dict())] *)
Definition dict_roundtrip (p : BaseProperty) : result (option BaseProperty) :=
  d ← to_dict p; from_dict (cls p) d.

(** [type(p).from_obj(p.to_obj())] *)
Definition obj_roundtrip (p : BaseProperty) : result (option BaseProperty) :=
  n ← to_obj p; from_obj (cls p) (ObjNode n).

(** [BaseProperty.__int__] (source lines 32-33) *)
Definition __int__ (self : BaseProperty) : result pyval :=
  serialized ← serialized_value self; py_int serialized.

(** A property or [None], as a Python object. *)
Definition as_pyobj (o : option BaseProperty) : pyobj :=
  match o with
  | Some p => PyProperty p
  | None => PyValue VNone
  end.

End Properties.

Arguments BaseProperty {_}.
Arguments pyobj {_}.

(** ** The registry of binding classes *)

#[export] Instance binding_class_eq_dec : EqDecision binding_class.
Proof. solve_decision. Defined.

(** The entries of the dict literal [BINDING_CLASS_MAPPING], in source
    order (source lines 425-443). *)
Definition BINDING_CLASS_MAPPING_items : list (binding_class * Cls.t) :=
  [ (StringObjectPropertyType, Cls.String);
    (IntegerObjectPropertyType, Cls.Integer);
    (PositiveIntegerObjectPropertyType, Cls.PositiveInteger);
    (UnsignedIntegerObjectPropertyType, Cls.UnsignedInteger);
    (UnsignedLongObjectPropertyType, Cls.UnsignedLong);
    (AnyURIObjectPropertyType, Cls.AnyURI);
    (HexBinaryObjectPropertyType, Cls.HexBinary);
    (DateTimeObjectPropertyType, Cls.DateTime);
    (DurationObjectPropertyType, Cls.Duration);
    (NonNegativeIntegerObjectPropertyType, Cls.NonNegativeInteger);
    (FloatObjectPropertyType, Cls.Float);
    (DoubleObjectPropertyType, Cls.Double);
    (LongObjectPropertyType, Cls.Long);
    (UnsignedLongObjectPropertyType, Cls.UnsignedLong);
    (SimpleHashValueType, Cls.HexBinary) ].

(** Lookup in a dict literal: of two entries with one key the later
    one stands. *)
Fixpoint literal_get (items : list (binding_class * Cls.t)) (k : binding_class)
  : option Cls.t :=
  match items with
  | [] => None
  | (k', c) :: rest =>
      match literal_get rest k with
      | Some c' => Some c'
      | None => if decide (k' = k) then Some c else None
      end
  end.

(** [BINDING_CLASS_MAPPING.get(k)] *)
Definition BINDING_CLASS_MAPPING (k : binding_class) : option Cls.t :=
  literal_get BINDING_CLASS_MAPPING_items k.

(** The attributes of a node that [to_obj] and [_populate_from_obj]
    touch themselves. *)
Definition binding_fields : list string :=
  [ "valueOf_"; "datatype"; "id"; "idref"; "appears_random"; "is_obfuscated";
    "obfuscation_algorithm_ref"; "is_defanged"; "defanging_algorithm_ref";
    "refanging_transform_type"; "refanging_transform" ].

(** ** A concrete setting to run the module in *)

(** Modelled from the spec: the attributes of the mixin, "condition, bit
    mask, pattern type, regex syntax, trend/has-changed flags", each
    unset on a new entity, written to and read from a mapping or a node
    under its own name, and compared by [==]. *)
Record pattern_attrs := mk_pattern_attrs {
  pa_condition : pyval;
  pa_bit_mask : pyval;
  pa_pattern_type : pyval;
  pa_regex_syntax : pyval;
  pa_has_changed : pyval;
  pa_trend : pyval
}.

Definition pattern_attrs_is_plain (a : pattern_attrs) : bool :=
  is_None (pa_condition a) && is_None (pa_bit_mask a) &&
  is_None (pa_pattern_type a) && is_None (pa_regex_syntax a) &&
  is_None (pa_has_changed a) && is_None (pa_trend a).

Definition pattern_attrs_to_dict (a : pattern_attrs) (d : dict) : dict :=
  put_if_set "trend" (pa_trend a)
    (put_if_set "has_changed" (pa_has_changed a)
      (put_if_set "regex_syntax" (pa_regex_syntax a)
        (put_if_set "pattern_type" (pa_pattern_type a)
          (put_if_set "bit_mask" (pa_bit_mask a)
            (put_if_set "condition" (pa_condition a) d))))).

Definition pattern_attrs_from_dict (d : dict) (_ : pattern_attrs) : pattern_attrs :=
  mk_pattern_attrs (dict_get d "condition") (dict_get d "bit_mask")
    (dict_get d "pattern_type") (dict_get d "regex_syntax")
    (dict_get d "has_changed") (dict_get d "trend").

Definition pattern_attrs_to_obj (a : pattern_attrs) (n : binding_obj) : binding_obj :=
  mk_binding_obj (pattern_attrs_to_dict a (binding_attrs n)).

Definition pattern_attrs_from_obj (n : binding_obj) (a : pattern_attrs) : pattern_attrs :=
  pattern_attrs_from_dict (binding_attrs n) a.

Definition spec_PatternFieldGroup : PatternFieldGroup := {|
  pattern_fields := pattern_attrs;
  PatternFieldGroup___init__ := mk_pattern_attrs VNone VNone VNone VNone VNone VNone;
  bit_mask := pa_bit_mask;
  pattern_type := pa_pattern_type;
  regex_syntax := pa_regex_syntax;
  has_changed := pa_has_changed;
  trend := pa_trend;
  PatternFieldGroup__conditions_equal := fun a b => py_eq (pa_condition a) (pa_condition b);
  PatternFieldGroup_is_plain := pattern_attrs_is_plain;
  PatternFieldGroup_to_obj := pattern_attrs_to_obj;
  PatternFieldGroup_to_dict := pattern_attrs_to_dict;
  PatternFieldGroup_from_obj := pattern_attrs_from_obj;
  PatternFieldGroup_from_dict := pattern_attrs_from_dict
|}.

Definition two_digits (a b : ascii) : option N :=
  Z.to_N <$> digits_value 0 [a; b].

(** A reader of the layout [isoformat] writes,
    [YYYY-MM-DDTHH:MM:SS] with an optional [.ffffff]. *)
Definition iso8601_parse (s : string) : option datetime :=
  match list_ascii_of_string s with
  | y1 :: y2 :: y3 :: y4 :: d1 :: m1 :: m2 :: d2 :: a1 :: a2 :: t ::
    h1 :: h2 :: c1 :: n1 :: n2 :: c2 :: s1 :: s2 :: rest =>
      if Ascii.eqb d1 "-" && Ascii.eqb d2 "-" && Ascii.eqb t "T" &&
         Ascii.eqb c1 ":" && Ascii.eqb c2 ":" then
        yy ← Z.to_N <$> digits_value 0 [y1; y2; y3; y4];
        mm ← two_digits m1 m2;
        dd ← two_digits a1 a2;
        hh ← two_digits h1 h2;
        nn ← two_digits n1 n2;
        ss ← two_digits s1 s2;
        match rest with
        | [] => Some (mk_datetime yy mm dd hh nn ss 0)
        | [dot; f1; f2; f3; f4; f5; f6] =>
            if Ascii.eqb dot "." then
              us ← Z.to_N <$> digits_value 0 [f1; f2; f3; f4; f5; f6];
              Some (mk_datetime yy mm dd hh nn ss us)
            else None
        | _ => None
        end
      else None
  | _ => None
  end.

(** A stand-in for the imported functions: a timestamp parser that reads
    ISO-8601 text only, no XML escaping, and binding constructors that
    return a node with no attribute set. *)
Definition plain_Environment : Environment := {|
  dateutil_parser_parse := fun v =>
    match v with
    | VStr s =>
        match iso8601_parse s with
        | Some d => Ok d
        | None => Raise ValueError
        end
    | _ => Raise TypeError
    end;
  normalize_to_xml := fun v => v;
  denormalize_from_xml := fun v => v;
  binding_new := fun _ => mk_binding_obj ∅
|}.

(** * Properties of the module *)

Section PropertyFacts.
Context {PFG : PatternFieldGroup} {Env : Environment}.

(** ** Values *)

Lemma is_None_spec (v : pyval) : is_None v = true <-> v = VNone.
Proof. destruct v; simpl; split; congruence. Qed.

Lemma datetime_eqb_refl (d : datetime) : datetime_eqb d d = true.
Proof. unfold datetime_eqb. rewrite !N.eqb_refl. reflexivity. Qed.

(** [v == v] holds for every value that holds no NaN. *)
Lemma py_eq_refl : forall v : pyval, nan_free v = true -> py_eq v v = true.
Proof.
  fix IH 1. intros [ | b | z | f | s | d | l]; simpl.
  - reflexivity.
  - intros _. apply Bool.eqb_reflx.
  - intros _. apply Z.eqb_refl.
  - destruct f as [ | neg | q]; simpl; intros Hf.
    + discriminate Hf.
    + apply Bool.eqb_reflx.
    + apply Qeq_bool_refl.
  - intros _. apply String.eqb_refl.
  - intros _. apply datetime_eqb_refl.
  - induction l as [ | x xs IHxs]; [reflexivity | ].
    intros Hl. apply andb_true_iff in Hl as [Hx Hxs].
    rewrite (IH x Hx), (IHxs Hxs). reflexivity.
Qed.

(** ** Equality *)

(** C1 (as amended): the full comparison of two properties is the
    conjunction of their agreement on every other field with the
    equality of their [datatype] fields, so two properties that agree
    on everything else are equal exactly when their datatypes are. *)
Theorem eq_compares_datatype (self other : BaseProperty) :
  __eq__ self (PyProperty other) =
  Ok (agree_except_datatype self other &&
      py_eq (datatype self) (datatype other)).
Proof.
  unfold __eq__, agree_except_datatype. f_equal.
  destruct (py_eq (datatype self) (datatype other)).
  - rewrite !andb_true_r. reflexivity.
  - rewrite !andb_false_r. reflexivity.
Qed.

(** The plain half of the comparison with a bare value: a plain
    property compares its [value] with the operand. *)
Lemma eq_plain_bare_value (self : BaseProperty) (v : pyval) :
  is_plain self = true ->
  __eq__ self (PyValue v) = Ok (py_eq (value self) v).
Proof. intros Hplain. simpl. rewrite Hplain. reflexivity. Qed.

(** C3: comparing a property with a bare value returns [value == v] when
    the property is plain, and otherwise raises [AttributeError] instead
    of returning not-equal; so does a [String("x")] whose [id_] is set,
    compared with ["x"]. *)
Theorem eq_bare_value (self : BaseProperty) (v : pyval) :
  __eq__ self (PyValue v) =
    (if is_plain self then Ok (py_eq (value self) v) else Raise AttributeError)
  /\ exists p,
       __init__ Cls.String [VStr "x"] [] = Ok p /\
       __eq__ (with_id_ (VStr "a") p) (PyValue (VStr "x")) = Raise AttributeError.
Proof.
  split; [reflexivity | ].
  eexists. split; reflexivity.
Qed.

(** ** Construction *)

(** C4: the initializers of [UnsignedInteger] and [NonNegativeInteger]
    look up the unbound name [BaseProeprty], so constructing either one
    raises [NameError] whatever the arguments, a numeric string
    included, while [Integer("42")] holds the integer 42. *)
Theorem misspelt_base_initializer (args : list pyval) (kwargs : list (string * pyval)) :
  __init__ Cls.UnsignedInteger args kwargs = Raise NameError /\
  __init__ Cls.NonNegativeInteger args kwargs = Raise NameError /\
  __init__ Cls.UnsignedInteger [VStr "42"] [] = Raise NameError /\
  __init__ Cls.NonNegativeInteger [VStr "42"] [] = Raise NameError /\
  exists p, __init__ Cls.Integer [VStr "42"] [] = Ok p /\ value p = VInt 42.
Proof.
  repeat split; try reflexivity.
  eexists. split; reflexivity.
Qed.

(** C7: [Integer("not-a-number")] raises [ValueError]; provided
    [dateutil.parser.parse] rejects the text ["not-a-date"] with a
    [ValueError], so does [DateTime("not-a-date")]; and [DateTime(None)]
    constructs a property whose value is [None]. *)
Theorem coercion_failures :
  dateutil_parser_parse (VStr "not-a-date") = Raise ValueError ->
  __init__ Cls.Integer [VStr "not-a-number"] [] = Raise ValueError /\
  __init__ Cls.DateTime [VStr "not-a-date"] [] = Raise ValueError /\
  exists p, __init__ Cls.DateTime [VNone] [] = Ok p /\ value p = VNone.
Proof.
  intros Hparse. split; [reflexivity | split].
  - unfold __init__, BaseProperty___init__, value_setter. cbn.
    rewrite Hparse. reflexivity.
  - eexists. split; reflexivity.
Qed.

(** ** Truthiness *)

(** C8: the boolean conversion of a property is false if and only if the
    property is plain and its value is [None]. *)
Theorem nonzero_false_iff (self : BaseProperty) :
  __nonzero__ self = false <-> is_plain self = true /\ value self = VNone.
Proof.
  unfold __nonzero__. rewrite <- is_None_spec.
  destruct (is_plain self), (is_None (value self)); simpl;
    split; try tauto; try congruence; intros [? ?]; congruence.
Qed.

(** ** Absent input *)

(** C6: on any class, [from_dict] and [from_obj] return [None], and
    raise nothing, when given a falsy argument ([None] included). *)
Theorem from_falsy_is_None (c : Cls.t) (attr_dict : map_form) (attr_obj : obj_form) :
  map_form_truthy attr_dict = false ->
  obj_form_truthy attr_obj = false ->
  from_dict c attr_dict = Ok None /\ from_obj c attr_obj = Ok None.
Proof.
  intros Hd Ho. unfold from_dict, from_obj. rewrite Hd, Ho. split; reflexivity.
Qed.

(** ** What a constructor leaves behind *)

Lemma value_setter_new_instance (c : Cls.t) (v0 v pv : pyval) :
  parsed_value c v = Ok pv ->
  value_setter (new_instance c v0) v = Ok (new_instance c pv).
Proof. intros Hp. unfold value_setter. simpl. rewrite Hp. reflexivity. Qed.

Lemma parsed_value_None (c : Cls.t) : parsed_value c VNone = Ok VNone.
Proof. destruct c; reflexivity. Qed.

(** A constructor that returns has found its base initializer, bound
    its arguments and parsed the value; the instance is [new_instance]. *)
Lemma init_inv (c : Cls.t) args kwargs (p : BaseProperty) :
  __init__ c args kwargs = Ok p ->
  base_name_bound c = true /\
  exists v0 pv, bind_init_args args kwargs = Ok v0 /\
    parsed_value c v0 = Ok pv /\ p = new_instance c pv.
Proof.
  assert (Hbase : BaseProperty___init__ c args kwargs = Ok p ->
    init_datatype c = VNone ->
    exists v0 pv, bind_init_args args kwargs = Ok v0 /\
      parsed_value c v0 = Ok pv /\ p = new_instance c pv).
  { unfold BaseProperty___init__, value_setter. intros Hi Hd.
    destruct (bind_init_args args kwargs) as [v0 | ]; [ | discriminate].
    simpl in Hi. destruct (parsed_value c v0) as [pv | ] eqn:Hp; [ | discriminate].
    simpl in Hi. exists v0, pv. split; [reflexivity | split; [exact Hp | ]].
    injection Hi as <-. unfold new_instance. rewrite Hd. reflexivity. }
  assert (Hsub : (self ← BaseProperty___init__ c args kwargs;
                  Ok (with_datatype (init_datatype c) self)) = Ok p ->
    exists v0 pv, bind_init_args args kwargs = Ok v0 /\
      parsed_value c v0 = Ok pv /\ p = new_instance c pv).
  { unfold BaseProperty___init__, value_setter. intros Hi.
    destruct (bind_init_args args kwargs) as [v0 | ]; [ | discriminate].
    simpl in Hi. destruct (parsed_value c v0) as [pv | ] eqn:Hp; [ | discriminate].
    simpl in Hi. exists v0, pv. split; [reflexivity | split; [exact Hp | ]].
    injection Hi as <-. reflexivity. }
  destruct c; intros Hi;
    try (unfold __init__ in Hi;
         change (base_name_bound _) with false in Hi; discriminate Hi);
    (split; [reflexivity | ]);
    first [ apply Hbase; [exact Hi | reflexivity] | apply Hsub; exact Hi ].
Qed.

Lemma init_intro (c : Cls.t) args kwargs (v0 pv : pyval) :
  base_name_bound c = true ->
  bind_init_args args kwargs = Ok v0 ->
  parsed_value c v0 = Ok pv ->
  __init__ c args kwargs = Ok (new_instance c pv).
Proof.
  intros Hb Ha Hp.
  assert (Hbase : BaseProperty___init__ c args kwargs =
    Ok (mk_BaseProperty c pv VNone VNone VNone VNone VNone VNone VNone VNone
          VNone VNone PatternFieldGroup___init__)).
  { unfold BaseProperty___init__, value_setter. rewrite Ha. simpl.
    rewrite Hp. reflexivity. }
  destruct c; try discriminate Hb; unfold __init__;
    try (change (base_name_bound _) with true; cbv iota);
    rewrite Hbase; reflexivity.
Qed.

Lemma init_no_args (c : Cls.t) :
  base_name_bound c = true -> __init__ c [] [] = Ok (new_instance c VNone).
Proof.
  intros Hb. apply init_intro with (v0 := VNone);
    [exact Hb | reflexivity | apply parsed_value_None].
Qed.

Lemma is_plain_new_instance (c : Cls.t) (v : pyval) :
  is_plain (new_instance c v) = PatternFieldGroup_is_plain PatternFieldGroup___init__.
Proof. reflexivity. Qed.

(** ** The map form *)

Lemma put_if_set_eq (k : string) (v : pyval) (d : dict) :
  put_if_set k v d !! k = if is_None v then d !! k else Some v.
Proof.
  unfold put_if_set. destruct (is_None v); [reflexivity | ].
  apply lookup_insert_eq.
Qed.

Lemma put_if_set_ne (k k' : string) (v : pyval) (d : dict) :
  k <> k' -> put_if_set k v d !! k' = d !! k'.
Proof.
  intros Hne. unfold put_if_set. destruct (is_None v); [reflexivity | ].
  apply lookup_insert_ne, Hne.
Qed.

Ltac lookup_chain :=
  repeat first
    [ rewrite put_if_set_ne by discriminate
    | rewrite put_if_set_eq
    | rewrite lookup_insert_ne by discriminate
    | rewrite lookup_insert_eq
    | rewrite lookup_empty ].

(** The mapping [to_dict] builds for a property that is not plain. *)
Lemma to_dict_Mapping_inv (self : BaseProperty) (m : dict) :
  to_dict self = Ok (Mapping m) ->
  exists base : dict,
    m = PatternFieldGroup_to_dict (pattern self) base /\
    base !! "datatype" = None /\
    base !! "id" = entry_if_set (id_ self) /\
    base !! "idref" = entry_if_set (idref self) /\
    base !! "appears_random" = entry_if_set (appears_random self) /\
    base !! "is_obfuscated" = entry_if_set (is_obfuscated self) /\
    base !! "obfuscation_algorithm_ref" = entry_if_set (obfuscation_algorithm_ref self) /\
    base !! "is_defanged" = entry_if_set (is_defanged self) /\
    base !! "defanging_algorithm_ref" = entry_if_set (defanging_algorithm_ref self) /\
    base !! "refanging_transform_type" = entry_if_set (refanging_transform_type self) /\
    base !! "refanging_transform" = entry_if_set (refanging_transform self) /\
    base !! "value" =
      (if is_None (value self) then None
       else match serialized_value self with Ok s => Some s | Raise _ => None end).
Proof.
  unfold to_dict. destruct (is_plain self).
  { destruct (serialized_value self); discriminate. }
  destruct (is_None (value self)); simpl.
  - intros [= <-]. eexists. split; [reflexivity | ].
    unfold entry_if_set. repeat split; lookup_chain; reflexivity.
  - destruct (serialized_value self) as [s | ]; [ | discriminate]. simpl.
    intros [= <-]. eexists. split; [reflexivity | ].
    unfold entry_if_set. repeat split; lookup_chain; reflexivity.
Qed.

(** C5 (as amended): [to_dict] of a plain property is its bare
    serialized value; [to_dict] of a property that is not plain is a
    mapping that holds [value] only when it is not [None], every
    optional field that is set under its own key, and no [datatype]
    key.  [String("hello")] gives ["hello"], and the same property with
    [id_] then set to ["x"] gives the mapping of [value] and [id].  The
    mixin is assumed plain on a new entity, to leave the keys of this
    module alone, and to add nothing when none of its fields is set. *)
Theorem to_dict_shape (self : BaseProperty) (serialized : pyval) :
  PatternFieldGroup_is_plain PatternFieldGroup___init__ = true ->
  (forall pf (d : dict) k, k ∈ base_keys ->
     PatternFieldGroup_to_dict pf d !! k = d !! k) ->
  (forall d : dict, PatternFieldGroup_to_dict PatternFieldGroup___init__ d = d) ->
  serialized_value self = Ok serialized ->
  (is_plain self = true -> to_dict self = Ok (Scalar serialized)) /\
  (is_plain self = false ->
   exists m : dict, to_dict self = Ok (Mapping m) /\
     m !! "value" = (if is_None (value self) then None else Some serialized) /\
     m !! "id" = entry_if_set (id_ self) /\
     m !! "idref" = entry_if_set (idref self) /\
     m !! "appears_random" = entry_if_set (appears_random self) /\
     m !! "is_obfuscated" = entry_if_set (is_obfuscated self) /\
     m !! "obfuscation_algorithm_ref" = entry_if_set (obfuscation_algorithm_ref self) /\
     m !! "is_defanged" = entry_if_set (is_defanged self) /\
     m !! "defanging_algorithm_ref" = entry_if_set (defanging_algorithm_ref self) /\
     m !! "refanging_transform_type" = entry_if_set (refanging_transform_type self) /\
     m !! "refanging_transform" = entry_if_set (refanging_transform self) /\
     m !! "datatype" = None) /\
  (exists p, __init__ Cls.String [VStr "hello"] [] = Ok p /\
     to_dict p = Ok (Scalar (VStr "hello")) /\
     to_dict (with_id_ (VStr "x") p) =
       Ok (Mapping {[ "value" := VStr "hello"; "id" := VStr "x" ]})).
Proof.
  intros Hinit Hframe Hnone Hser. split; [ | split].
  - intros Hplain. unfold to_dict. rewrite Hplain, Hser. reflexivity.
  - intros Hplain.
    assert (Hm : exists m, to_dict self = Ok (Mapping m)).
    { unfold to_dict. rewrite Hplain, Hser.
      destruct (is_None (value self)); eexists; reflexivity. }
    destruct Hm as [m Hm]. exists m. split; [exact Hm | ].
    destruct (to_dict_Mapping_inv _ _ Hm)
      as (base & -> & Hdt & Hid & Hidref & Har & Hio & Hoar & Hidf & Hdar
          & Hrtt & Hrt & Hval).
    rewrite Hser in Hval.
    rewrite !Hframe by (unfold base_keys; repeat constructor).
    repeat split; assumption.
  - eexists. split; [reflexivity | split].
    + unfold to_dict, is_plain. cbn. rewrite Hinit. reflexivity.
    + unfold to_dict, is_plain. cbn. rewrite Hnone. f_equal.
Qed.

(** ** Falsy scalars *)

(** C10: on any class, [from_dict] of a falsy bare value (the empty
    string, 0 and [False] among them) returns [None], so a plain
    property whose serialized value is falsy comes back from [to_dict]
    followed by [from_dict] as [None], not as a property. *)
Theorem from_dict_falsy_scalar (c : Cls.t) (v : pyval) (p : BaseProperty) :
  truthy v = false ->
  is_plain p = true ->
  serialized_value p = Ok v ->
  from_dict c (Scalar v) = Ok None /\
  dict_roundtrip p = Ok None /\
  from_dict c (Scalar (VStr "")) = Ok None /\
  from_dict c (Scalar (VInt 0)) = Ok None /\
  from_dict c (Scalar (VBool false)) = Ok None.
Proof.
  intros Hv Hplain Hser.
  assert (Hfd : forall c', from_dict c' (Scalar v) = Ok None).
  { intros c'. unfold from_dict. simpl. rewrite Hv. reflexivity. }
  split; [apply Hfd | split; [ | repeat split]].
  unfold dict_roundtrip, to_dict. rewrite Hplain, Hser. simpl. apply Hfd.
Qed.

(** ** The datatype of a deserialized property *)

Lemma binding_get_set_ne (k k' : string) (v : pyval) (n : binding_obj) :
  k <> k' -> binding_get k' (binding_set k v n) = binding_get k' n.
Proof.
  intros Hne. unfold binding_get, binding_set. simpl.
  rewrite lookup_insert_ne by exact Hne. reflexivity.
Qed.



(** What [from_obj] returns for a node. *)
Lemma from_obj_node (c : Cls.t) (n : binding_obj) (v : pyval) :
  base_name_bound c = true ->
  parsed_value c (denormalize_from_xml (get_valueOf_ n)) = Ok v ->
  from_obj c (ObjNode n) =
  Ok (Some (mk_BaseProperty c v (get_id n) (get_idref n) (get_datatype n)
              (get_appears_random n) (get_is_obfuscated n)
              (get_obfuscation_algorithm_ref n) (get_is_defanged n)
              (get_defanging_algorithm_ref n) (get_refanging_transform_type n)
              (get_refanging_transform n)
              (PatternFieldGroup_from_obj n PatternFieldGroup___init__))).
Proof.
  intros Hb Hp. unfold from_obj. simpl.
  rewrite (init_no_args c Hb). simpl.
  rewrite (value_setter_new_instance c VNone _ v Hp). reflexivity.
Qed.

(** What [from_dict] returns for a mapping that is not empty. *)
Lemma from_dict_mapping (c : Cls.t) (m : dict) (v : pyval) :
  m <> ∅ ->
  base_name_bound c = true ->
  parsed_value c (dict_get m "value") = Ok v ->
  from_dict c (Mapping m) =
  Ok (Some (mk_BaseProperty c v (dict_get m "id") (dict_get m "idref")
              (dict_get m "datatype") (dict_get m "appears_random")
              (dict_get m "is_obfuscated")
              (dict_get m "obfuscation_algorithm_ref")
              (dict_get m "is_defanged")
              (dict_get m "defanging_algorithm_ref")
              (dict_get m "refanging_transform_type")
              (dict_get m "refanging_transform")
              (PatternFieldGroup_from_dict m PatternFieldGroup___init__))).
Proof.
  intros Hm Hb Hp. unfold from_dict. simpl.
  rewrite (bool_decide_eq_false_2 _ Hm). simpl.
  rewrite (init_no_args c Hb). simpl.
  rewrite (value_setter_new_instance c VNone _ v Hp). reflexivity.
Qed.


(** ** Parsing what was serialized *)

Lemma map_raising_reparse (f g : pyval -> result pyval) (P : pyval -> Prop) :
  (forall x y z, f x = Ok y -> g y = Ok z -> P y -> f z = Ok y) ->
  forall l l1 l2,
    map_raising f l = Ok l1 -> map_raising g l1 = Ok l2 -> Forall P l1 ->
    map_raising f l2 = Ok l1.
Proof.
  intros Hfg. induction l as [ | x l IH]; intros l1 l2 Hf Hg HP; simpl in Hf.
  - injection Hf as <-. simpl in Hg. injection Hg as <-. reflexivity.
  - destruct (f x) as [y | ] eqn:Hx; [ | discriminate]. simpl in Hf.
    destruct (map_raising f l) as [ys | ] eqn:Hl; [ | discriminate].
    simpl in Hf. injection Hf as <-. simpl in Hg.
    destruct (g y) as [z | ] eqn:Hy; [ | discriminate]. simpl in Hg.
    destruct (map_raising g ys) as [zs | ] eqn:Hzs; [ | discriminate].
    simpl in Hg. injection Hg as <-.
    inversion HP as [ | ? ? HPy HPys]; subst. simpl.
    rewrite (Hfg x y z Hx Hy HPy). simpl.
    rewrite (IH ys zs eq_refl Hzs HPys). reflexivity.
Qed.

Lemma py_int_inv (x y : pyval) : py_int x = Ok y -> exists n, y = VInt n.
Proof.
  destruct x as [ | b | n | f | s | d | l]; simpl; try discriminate.
  - intros [= <-]. eauto.
  - intros [= <-]. eauto.
  - destruct f; try discriminate. intros [= <-]. eauto.
  - destruct (int_of_string s); [ | discriminate]. intros [= <-]. eauto.
Qed.

Lemma int_parse_inv (x y : pyval) :
  (if is_None x then Ok VNone else py_int x) = Ok y ->
  y = VNone \/ exists n, y = VInt n.
Proof.
  destruct (is_None x).
  - intros [= <-]. left. reflexivity.
  - intros Hi. right. apply (py_int_inv x y Hi).
Qed.

Lemma DateTime_parse_inv (x y : pyval) :
  DateTime__parse_value x = Ok y -> y = VNone \/ exists d, y = VDateTime d.
Proof.
  unfold DateTime__parse_value. destruct (truthy x); simpl.
  - destruct x; try (intros [= <-]; right; eauto);
      (destruct (dateutil_parser_parse _); [ | discriminate]);
      intros [= <-]; right; eauto.
  - intros [= <-]. left. reflexivity.
Qed.

(** The text [isoformat] writes is never empty. *)
Lemma isoformat_truthy (d : datetime) : truthy (VStr (isoformat d)) = true.
Proof.
  unfold isoformat. simpl.
  destruct (pad 3 (year d / 10)) as [ | a s]; reflexivity.
Qed.

(** One stored element: parsing what it serializes to gives it back. *)
Lemma parse_serialize_parse (c : Cls.t) (x y z : pyval) :
  _parse_value c x = Ok y ->
  _serialize_value c y = Ok z ->
  (c = Cls.DateTime -> forall d, y = VDateTime d ->
     dateutil_parser_parse (VStr (isoformat d)) = Ok d) ->
  _parse_value c z = Ok y.
Proof.
  intros Hp Hs Ht.
  assert (Hint : (if is_None x then Ok VNone else py_int x) = Ok y ->
    Ok y = Ok z -> (if is_None z then Ok VNone else py_int z) = Ok y).
  { intros Hi [= <-]. destruct (int_parse_inv x y Hi) as [-> | [n ->]]; reflexivity. }
  destruct c; simpl in *;
    unfold BaseProperty__parse_value, BaseProperty__serialize_value,
      UnsignedLong__parse_value, Integer__parse_value,
      PositiveInteger__parse_value, NonNegativeInteger__parse_value in *;
    try (apply Hint; assumption); try congruence.
  destruct (DateTime_parse_inv x y Hp) as [-> | [d ->]].
  - injection Hs as <-. reflexivity.
  - injection Hs as <-. unfold DateTime__parse_value.
    rewrite isoformat_truthy. simpl. rewrite (Ht eq_refl d eq_refl). reflexivity.
Qed.

Lemma parse_not_list (c : Cls.t) (x y : pyval) :
  is_list x = false -> _parse_value c x = Ok y -> is_list y = false.
Proof.
  intros Hx Hp.
  assert (Hint : (if is_None x then Ok VNone else py_int x) = Ok y ->
    is_list y = false).
  { intros Hi. destruct (int_parse_inv x y Hi) as [-> | [n ->]]; reflexivity. }
  destruct c; simpl in Hp;
    unfold BaseProperty__parse_value, UnsignedLong__parse_value,
      Integer__parse_value, PositiveInteger__parse_value,
      NonNegativeInteger__parse_value in Hp;
    try (apply Hint; assumption); try congruence.
  destruct (DateTime_parse_inv x y Hp) as [-> | [d ->]]; reflexivity.
Qed.

Lemma serialize_not_list (c : Cls.t) (y z : pyval) :
  is_list y = false -> _serialize_value c y = Ok z -> is_list z = false.
Proof.
  intros Hy Hs.
  destruct c; simpl in Hs; unfold BaseProperty__serialize_value in Hs;
    try congruence.
  unfold DateTime__serialize_value in Hs.
  destruct (truthy y); simpl in Hs; [ | injection Hs as <-; reflexivity].
  destruct y; try discriminate. injection Hs as <-. reflexivity.
Qed.

Lemma parsed_value_scalar (c : Cls.t) (v : pyval) :
  is_list v = false -> parsed_value c v = _parse_value c v.
Proof. destruct v; simpl; intros; [reflexivity .. | discriminate]. Qed.

(** The whole stored value: the setter, given what [serialized_value]
    returned, stores the same value again. *)
Lemma reparse_serialized (c : Cls.t) (v pv sv : pyval) :
  parsed_value c v = Ok pv ->
  serialized_value (new_instance c pv) = Ok sv ->
  (c = Cls.DateTime -> forall d, In d (timestamps pv) ->
     dateutil_parser_parse (VStr (isoformat d)) = Ok d) ->
  parsed_value c sv = Ok pv.
Proof.
  intros Hp Hs Ht. unfold serialized_value in Hs. simpl in Hs.
  destruct (is_list v) eqn:Hv.
  - destruct v as [ | | | | | | l]; try discriminate. simpl in Hp.
    destruct (map_raising (_parse_value c) l) as [l1 | ] eqn:Hl1; [ | discriminate].
    simpl in Hp. injection Hp as <-.
    destruct (map_raising (_serialize_value c) l1) as [l2 | ] eqn:Hl2;
      [ | discriminate].
    simpl in Hs. injection Hs as <-. simpl.
    rewrite (map_raising_reparse _ _
               (fun y => c = Cls.DateTime -> forall d, y = VDateTime d ->
                  dateutil_parser_parse (VStr (isoformat d)) = Ok d)
               (parse_serialize_parse c) l l1 l2 Hl1 Hl2); [reflexivity | ].
    apply Forall_forall. intros y Hy Hc d ->. apply (Ht Hc).
    simpl. apply in_flat_map. exists (VDateTime d).
    split; [apply list_elem_of_In, Hy | left; reflexivity].
  - rewrite (parsed_value_scalar c v Hv) in Hp.
    pose proof (parse_not_list c v pv Hv Hp) as Hpv.
    assert (Hs' : _serialize_value c pv = Ok sv).
    { destruct pv; try exact Hs. discriminate Hpv. }
    pose proof (serialize_not_list c pv sv Hpv Hs') as Hsv.
    rewrite (parsed_value_scalar c sv Hsv).
    apply (parse_serialize_parse c v pv sv Hp Hs').
    intros Hc d ->. apply (Ht Hc). left. reflexivity.
Qed.

(** A newly constructed property equals itself when neither its value
    nor the pattern fields of a new entity hold a NaN. *)
Lemma eq_new_instance_refl (c : Cls.t) (pv : pyval) :
  PatternFieldGroup__conditions_equal
    PatternFieldGroup___init__ PatternFieldGroup___init__ = true ->
  pattern_nan_free PatternFieldGroup___init__ = true ->
  nan_free pv = true ->
  __eq__ (new_instance c pv) (PyProperty (new_instance c pv)) = Ok true.
Proof.
  intros Hc Hpat Hpv. unfold pattern_nan_free in Hpat.
  apply andb_true_iff in Hpat as [Hpat Htrend].
  apply andb_true_iff in Hpat as [Hpat Hchanged].
  apply andb_true_iff in Hpat as [Hpat Hregex].
  apply andb_true_iff in Hpat as [Hmask Htype].
  unfold __eq__. simpl. unfold value. simpl.
  rewrite Hc, (py_eq_refl pv Hpv), (py_eq_refl _ Hmask), (py_eq_refl _ Htype),
    (py_eq_refl _ Hregex), (py_eq_refl _ Hchanged), (py_eq_refl _ Htrend).
  rewrite (py_eq_refl (init_datatype c)) by (destruct c; reflexivity).
  reflexivity.
Qed.

(** C2 (as amended): when the constructor of class [c] returns a
    property [p] for the value [v], the value [p] holds has no NaN in
    it, and the serialized value of [p] is truthy, [from_dict] of
    [to_dict] of [p] returns a property equal to [p].  The mixin is
    assumed plain and equal to itself on a new entity (its conditions
    compare equal and its fields hold no NaN), and, for [DateTime],
    [dateutil.parser.parse] to read back the ISO-8601 text of the
    timestamps [p] holds. *)
Theorem dict_roundtrip_equal (c : Cls.t) (v : pyval) (p : BaseProperty)
    (serialized : pyval) :
  PatternFieldGroup_is_plain PatternFieldGroup___init__ = true ->
  PatternFieldGroup__conditions_equal
    PatternFieldGroup___init__ PatternFieldGroup___init__ = true ->
  pattern_nan_free PatternFieldGroup___init__ = true ->
  nan_free (value p) = true ->
  (c = Cls.DateTime -> forall d, In d (timestamps (value p)) ->
     dateutil_parser_parse (VStr (isoformat d)) = Ok d) ->
  __init__ c [v] [] = Ok p ->
  serialized_value p = Ok serialized ->
  truthy serialized = true ->
  exists q, dict_roundtrip p = Ok (Some q) /\
    py_equals (as_pyobj (Some q)) (PyProperty p) = Ok true.
Proof.
  intros Hplain Hcond Hpat Hnan Ht Hinit Hs Htruthy.
  destruct (init_inv c [v] [] p Hinit) as (Hb & v0 & pv & Hargs & Hp & ->).
  injection Hargs as <-.
  exists (new_instance c pv). split.
  - unfold dict_roundtrip, to_dict. rewrite is_plain_new_instance, Hplain, Hs. simpl.
    unfold from_dict. simpl. rewrite Htruthy. simpl.
    rewrite (init_no_args c Hb). simpl.
    rewrite (value_setter_new_instance c VNone serialized pv); [reflexivity | ].
    apply (reparse_serialized c v pv serialized Hp Hs Ht).
  - simpl. apply (eq_new_instance_refl c pv Hcond Hpat Hnan).
Qed.

(** * Further properties of the module *)

(** ** The value setter *)

Lemma parse_idempotent (c : Cls.t) (x y : pyval) :
  _parse_value c x = Ok y -> _parse_value c y = Ok y.
Proof.
  intros Hp.
  assert (Hint : (if is_None x then Ok VNone else py_int x) = Ok y ->
    (if is_None y then Ok VNone else py_int y) = Ok y).
  { intros Hi. destruct (int_parse_inv x y Hi) as [-> | [n ->]]; reflexivity. }
  destruct c; simpl in *;
    unfold BaseProperty__parse_value, UnsignedLong__parse_value,
      Integer__parse_value, PositiveInteger__parse_value,
      NonNegativeInteger__parse_value in *;
    try (apply Hint; assumption); try reflexivity.
  destruct (DateTime_parse_inv x y Hp) as [-> | [d ->]]; reflexivity.
Qed.

Lemma map_raising_fixed {A} (f : A -> result A) (l l1 : list A) :
  (forall x y, f x = Ok y -> f y = Ok y) ->
  map_raising f l = Ok l1 -> map_raising f l1 = Ok l1.
Proof.
  intros Hf. revert l1. induction l as [ | x l IH]; intros l1; simpl.
  - intros [= <-]. reflexivity.
  - destruct (f x) as [y | ] eqn:Hx; [ | discriminate]. simpl.
    destruct (map_raising f l) as [ys | ] eqn:Hl; [ | discriminate]. simpl.
    intros [= <-]. simpl. rewrite (Hf x y Hx). simpl.
    rewrite (IH ys eq_refl). reflexivity.
Qed.

Lemma parsed_value_idempotent (c : Cls.t) (v pv : pyval) :
  parsed_value c v = Ok pv -> parsed_value c pv = Ok pv.
Proof.
  intros Hp. destruct (is_list v) eqn:Hv.
  - destruct v as [ | | | | | | l]; try discriminate. simpl in Hp.
    destruct (map_raising (_parse_value c) l) as [l1 | ] eqn:Hl1; [ | discriminate].
    simpl in Hp. injection Hp as <-. simpl.
    rewrite (map_raising_fixed _ l l1 (parse_idempotent c) Hl1). reflexivity.
  - rewrite (parsed_value_scalar c v Hv) in Hp.
    rewrite (parsed_value_scalar c pv (parse_not_list c v pv Hv Hp)).
    apply (parse_idempotent c v pv Hp).
Qed.

(** X1: once an assignment to [value] has succeeded, assigning the
    stored value again succeeds and changes nothing. *)
Theorem value_setter_idempotent (self p : BaseProperty) (value_ : pyval) :
  value_setter self value_ = Ok p ->
  value_setter p (value p) = Ok p.
Proof.
  unfold value_setter. intros Hs.
  destruct (parsed_value (cls self) value_) as [pv | ] eqn:Hp; [ | discriminate].
  simpl in Hs. injection Hs as <-. simpl. unfold value. simpl.
  rewrite (parsed_value_idempotent _ _ _ Hp). reflexivity.
Qed.

Lemma map_raising_Forall2 {A B} (f : A -> result B) (l : list A) (l' : list B) :
  map_raising f l = Ok l' <-> Forall2 (fun x y => f x = Ok y) l l'.
Proof.
  revert l'. induction l as [ | x l IH]; intros l'; simpl.
  - split.
    + intros [= <-]. constructor.
    + intros Hf. inversion Hf. reflexivity.
  - split.
    + destruct (f x) as [y | ] eqn:Hx; [ | discriminate]. simpl.
      destruct (map_raising f l) as [ys | ] eqn:Hl; [ | discriminate]. simpl.
      intros [= <-]. constructor; [exact Hx | apply IH; reflexivity].
    + intros Hf. inversion Hf as [ | ? y ? ys Hx Hys]; subst.
      rewrite Hx. simpl. apply IH in Hys. rewrite Hys. reflexivity.
Qed.

(** X2: assigning a list to [value] parses it element by element: the
    assignment succeeds exactly when every element parses, and then the
    stored value is the list of the parsed elements, in order. *)
Theorem value_setter_list (self p : BaseProperty) (l : list pyval) :
  value_setter self (VList l) = Ok p <->
  exists l', Forall2 (fun x y => _parse_value (cls self) x = Ok y) l l' /\
    p = with__value (VList l') self.
Proof.
  unfold value_setter. simpl. split.
  - destruct (map_raising (_parse_value (cls self)) l) as [l' | ] eqn:Hl;
      [ | discriminate].
    simpl. intros [= <-]. exists l'. split; [ | reflexivity].
    apply map_raising_Forall2, Hl.
  - intros (l' & Hl & ->). apply map_raising_Forall2 in Hl. rewrite Hl.
    reflexivity.
Qed.

(** ** Serialization after a successful assignment *)

Lemma serialize_parsed (c : Cls.t) (x y : pyval) :
  _parse_value c x = Ok y -> exists z, _serialize_value c y = Ok z.
Proof.
  intros Hp.
  destruct c; simpl; unfold BaseProperty__serialize_value; eauto.
  destruct (DateTime_parse_inv x y Hp) as [-> | [d ->]]; eexists; reflexivity.
Qed.

Lemma map_raising_total {A B} (f : A -> result B) (l : list A) :
  Forall (fun x => exists y, f x = Ok y) l -> exists l', map_raising f l = Ok l'.
Proof.
  induction 1 as [ | x l [y Hx] _ [l' Hl]]; simpl.
  - eexists. reflexivity.
  - rewrite Hx. simpl. rewrite Hl. simpl. eexists. reflexivity.
Qed.

Lemma serialized_value_parsed (c : Cls.t) (v pv : pyval) (p : BaseProperty) :
  parsed_value c v = Ok pv -> cls p = c -> value p = pv ->
  exists sv, serialized_value p = Ok sv.
Proof.
  intros Hp Hc Hv. unfold serialized_value. rewrite Hc, Hv.
  destruct (is_list v) eqn:Hl.
  - destruct v as [ | | | | | | l]; try discriminate. simpl in Hp.
    destruct (map_raising (_parse_value c) l) as [l1 | ] eqn:Hl1; [ | discriminate].
    simpl in Hp. injection Hp as <-.
    destruct (map_raising_total (_serialize_value c) l1) as [l2 Hl2].
    { apply map_raising_Forall2 in Hl1. clear -Hl1.
      induction Hl1 as [ | x y l l1 Hx _ IH]; constructor; [ | exact IH].
      apply (serialize_parsed c x y Hx). }
    rewrite Hl2. simpl. eexists. reflexivity.
  - rewrite (parsed_value_scalar c v Hl) in Hp.
    pose proof (parse_not_list c v pv Hl Hp) as Hpv.
    destruct (serialize_parsed c v pv Hp) as [z Hz].
    exists z. destruct pv; try exact Hz. discriminate Hpv.
Qed.

(** X3: a property whose stored value is what the setter stores for
    some input (as after a constructor or a later assignment) always
    serializes: [serialized_value] and [to_dict] raise nothing, and
    neither does [to_obj] unless the instance is of [BaseProperty]
    itself. *)
Theorem serialization_succeeds (p : BaseProperty) (v0 : pyval) :
  parsed_value (cls p) v0 = Ok (value p) ->
  (exists sv, serialized_value p = Ok sv) /\
  (exists d, to_dict p = Ok d) /\
  (cls p <> Cls.BaseProperty -> exists n, to_obj p = Ok n).
Proof.
  intros Hp.
  destruct (serialized_value_parsed (cls p) v0 (value p) p Hp eq_refl eq_refl)
    as [sv Hsv].
  split; [eauto | split].
  - unfold to_dict. rewrite Hsv.
    destruct (is_plain p); [eexists; reflexivity | ].
    destruct (is_None (value p)); eexists; reflexivity.
  - intros Hc. unfold to_obj. rewrite Hsv.
    destruct (_get_binding_class (cls p)) as [bc | e] eqn:Hbc.
    + eexists. reflexivity.
    + exfalso. apply Hc. destruct (cls p); try discriminate Hbc. reflexivity.
Qed.

(** ** Equality between properties *)




(** ** Properties without content *)

Lemma serialize_None (c : Cls.t) : _serialize_value c VNone = Ok VNone.
Proof. destruct c; reflexivity. Qed.

(** X8: a property that is false as a boolean serializes to the bare
    [None], and [from_dict] of that is [None]: what [if prop:] skips is
    also what a round trip through the map form drops. *)
Theorem falsy_property_roundtrip (p : BaseProperty) :
  __nonzero__ p = false ->
  to_dict p = Ok (Scalar VNone) /\ dict_roundtrip p = Ok None.
Proof.
  unfold __nonzero__. intros Hnz.
  destruct (is_plain p) eqn:Hplain; [ | discriminate].
  destruct (is_None (value p)) eqn:Hnone; [ | discriminate].
  apply is_None_spec in Hnone.
  assert (Hd : to_dict p = Ok (Scalar VNone)).
  { unfold to_dict, serialized_value. rewrite Hplain, Hnone, serialize_None.
    reflexivity. }
  split; [exact Hd | ]. unfold dict_roundtrip. rewrite Hd. reflexivity.
Qed.

(** ** Deserializing into a class *)

Lemma init_raise (c : Cls.t) (v : pyval) (e : exn) :
  base_name_bound c = true ->
  parsed_value c v = Raise e ->
  __init__ c [v] [] = Raise e.
Proof.
  intros Hb Hp.
  assert (Hbase : BaseProperty___init__ c [v] [] = Raise e).
  { unfold BaseProperty___init__, value_setter. simpl. rewrite Hp. reflexivity. }
  destruct c; try discriminate Hb; unfold __init__;
    try (change (base_name_bound _) with true; cbv iota);
    rewrite Hbase; reflexivity.
Qed.

Lemma init_unbound (c : Cls.t) args kwargs :
  base_name_bound c = false -> __init__ c args kwargs = Raise NameError.
Proof.
  intros Hb. destruct c; try discriminate Hb; reflexivity.
Qed.

(** X10: [UnsignedInteger] and [NonNegativeInteger] cannot be
    deserialized: on either class [from_dict] and [from_obj] raise
    [NameError] for every truthy argument. *)
Theorem misspelt_classes_cannot_deserialize (c : Cls.t) (attr_dict : map_form)
    (attr_obj : obj_form) :
  c = Cls.UnsignedInteger \/ c = Cls.NonNegativeInteger ->
  map_form_truthy attr_dict = true ->
  obj_form_truthy attr_obj = true ->
  from_dict c attr_dict = Raise NameError /\
  from_obj c attr_obj = Raise NameError.
Proof.
  intros Hc Hd Ho.
  assert (Hb : base_name_bound c = false) by (destruct Hc as [-> | ->]; reflexivity).
  unfold from_dict, from_obj. rewrite Hd, Ho. simpl.
  rewrite (init_unbound c [] [] Hb). split; reflexivity.
Qed.

(** X11: for a truthy bare value, [from_dict] on a class does what
    calling the class on that value does: it returns the property the
    constructor returns and raises what the constructor raises. *)
Theorem from_dict_scalar_is_constructor (c : Cls.t) (v : pyval) :
  truthy v = true ->
  from_dict c (Scalar v) = (p ← __init__ c [v] []; Ok (Some p)).
Proof.
  intros Hv. unfold from_dict. simpl. rewrite Hv. simpl.
  destruct (base_name_bound c) eqn:Hb.
  - rewrite (init_no_args c Hb). simpl.
    destruct (parsed_value c v) as [pv | e] eqn:Hp.
    + rewrite (value_setter_new_instance c VNone v pv Hp).
      rewrite (init_intro c [v] [] v pv Hb eq_refl Hp). reflexivity.
    + rewrite (init_raise c v e Hb Hp).
      unfold value_setter. simpl. rewrite Hp. reflexivity.
  - rewrite !(init_unbound c _ _ Hb). reflexivity.
Qed.

(** ** Conversion to an integer *)

(** X12: for a property of [Integer], [UnsignedLong] or
    [PositiveInteger] constructed from one value that is not a list,
    [int(p)] returns the stored integer, and raises [TypeError] when
    the property was constructed from [None]. *)
Theorem int_of_integer_property (c : Cls.t) (v : pyval) (p : BaseProperty) :
  c = Cls.Integer \/ c = Cls.UnsignedLong \/ c = Cls.PositiveInteger ->
  is_list v = false ->
  __init__ c [v] [] = Ok p ->
  __int__ p = if is_None v then Raise TypeError else Ok (value p).
Proof.
  intros Hc Hl Hinit.
  destruct (init_inv c [v] [] p Hinit) as (_ & v0 & pv & Hargs & Hp & ->).
  injection Hargs as <-. rewrite (parsed_value_scalar c v Hl) in Hp.
  assert (Hint : (if is_None v then Ok VNone else py_int v) = Ok pv).
  { destruct Hc as [-> | [-> | ->]]; exact Hp. }
  unfold __int__. destruct (is_None v).
  - injection Hint as <-. destruct Hc as [-> | [-> | ->]]; reflexivity.
  - destruct (py_int_inv v pv Hint) as [n ->].
    destruct Hc as [-> | [-> | ->]]; reflexivity.
Qed.

(** ** Round trips of properties that carry metadata *)

Lemma unset_or_self (v : pyval) : (if is_None v then VNone else v) = v.
Proof. destruct v; reflexivity. Qed.

Lemma default_entry_if_set (v : pyval) : default VNone (entry_if_set v) = v.
Proof. destruct v; reflexivity. Qed.

Lemma binding_get_set_eq (k : string) (v : pyval) (n : binding_obj) :
  binding_get k (binding_set k v n) = v.
Proof. unfold binding_get, binding_set. simpl. rewrite lookup_insert_eq. reflexivity. Qed.

Lemma binding_get_call_if_set_eq (k : string) (v : pyval) (n : binding_obj) :
  binding_get k (call_if_set (binding_set k) v n) =
  if is_None v then binding_get k n else v.
Proof.
  unfold call_if_set. destruct (is_None v); [reflexivity | ].
  apply binding_get_set_eq.
Qed.

Lemma binding_get_call_if_set_ne (k k' : string) (v : pyval) (n : binding_obj) :
  k <> k' ->
  binding_get k' (call_if_set (binding_set k) v n) = binding_get k' n.
Proof.
  intros Hne. unfold call_if_set. destruct (is_None v); [reflexivity | ].
  apply binding_get_set_ne, Hne.
Qed.

(** The value the setter stored comes back when the setter is given
    what [serialized_value] returns. *)
Lemma reparse_own_serialized (p : BaseProperty) (v0 sv : pyval) :
  parsed_value (cls p) v0 = Ok (value p) ->
  serialized_value p = Ok sv ->
  (cls p = Cls.DateTime -> forall d, In d (timestamps (value p)) ->
     dateutil_parser_parse (VStr (isoformat d)) = Ok d) ->
  parsed_value (cls p) sv = Ok (value p).
Proof.
  intros Hp Hs Ht.
  apply (reparse_serialized (cls p) v0 (value p) sv Hp); [ | exact Ht].
  exact Hs.
Qed.

(** What [to_obj] followed by [from_obj] returns. *)
Lemma obj_roundtrip_result (p : BaseProperty) (v0 sv : pyval) :
  (forall bc k, k ∈ binding_fields -> binding_get k (binding_new bc) = VNone) ->
  (forall pf o k, k ∈ binding_fields ->
     binding_get k (PatternFieldGroup_to_obj pf o) = binding_get k o) ->
  cls p <> Cls.BaseProperty ->
  base_name_bound (cls p) = true ->
  parsed_value (cls p) v0 = Ok (value p) ->
  serialized_value p = Ok sv ->
  denormalize_from_xml (normalize_to_xml sv) = sv ->
  (cls p = Cls.DateTime -> forall d, In d (timestamps (value p)) ->
     dateutil_parser_parse (VStr (isoformat d)) = Ok d) ->
  exists n, to_obj p = Ok n /\
    obj_roundtrip p =
    Ok (Some (mk_BaseProperty (cls p) (value p) (id_ p) (idref p) VNone
                (appears_random p) (is_obfuscated p)
                (obfuscation_algorithm_ref p) (is_defanged p)
                (defanging_algorithm_ref p) (refanging_transform_type p)
                (refanging_transform p)
                (PatternFieldGroup_from_obj n PatternFieldGroup___init__))).
Proof.
  intros Hnew Hframe Hc Hb Hp Hs Hnorm Ht.
  assert (Hbc : exists bc, _get_binding_class (cls p) = Ok bc).
  { destruct (cls p); try (eexists; reflexivity). contradiction. }
  destruct Hbc as [bc Hbc].
  assert (Hto : exists n, to_obj p = Ok n).
  { unfold to_obj. rewrite Hbc, Hs. eexists. reflexivity. }
  destruct Hto as [n Hto]. exists n. split; [exact Hto | ].
  assert (Hget : forall k, k ∈ binding_fields -> binding_get k n =
    binding_get k
      (call_if_set set_refanging_transform (refanging_transform p)
      (call_if_set set_refanging_transform_type (refanging_transform_type p)
      (call_if_set set_defanging_algorithm_ref (defanging_algorithm_ref p)
      (call_if_set set_is_defanged (is_defanged p)
      (call_if_set set_obfuscation_algorithm_ref (obfuscation_algorithm_ref p)
      (call_if_set set_is_obfuscated (is_obfuscated p)
      (call_if_set set_appears_random (appears_random p)
      (call_if_set set_idref (idref p)
      (call_if_set set_id (id_ p)
      (set_valueOf_ (normalize_to_xml sv) (binding_new bc)))))))))))).
  { intros k Hk. unfold to_obj in Hto. rewrite Hbc, Hs in Hto. simpl in Hto.
    injection Hto as <-. apply Hframe, Hk. }
  unfold obj_roundtrip. rewrite Hto. simpl.
  assert (Hval : get_valueOf_ n = normalize_to_xml sv).
  { unfold get_valueOf_. rewrite Hget by (unfold binding_fields; repeat constructor).
    unfold set_id, set_idref, set_appears_random, set_is_obfuscated,
      set_obfuscation_algorithm_ref, set_is_defanged,
      set_defanging_algorithm_ref, set_refanging_transform_type,
      set_refanging_transform, set_valueOf_.
    rewrite !binding_get_call_if_set_ne by discriminate.
    apply binding_get_set_eq. }
  rewrite (from_obj_node (cls p) n (value p) Hb).
  2:{ rewrite Hval, Hnorm. apply (reparse_own_serialized p v0 sv Hp Hs Ht). }
  unfold get_id, get_idref, get_datatype, get_appears_random, get_is_obfuscated,
    get_obfuscation_algorithm_ref, get_is_defanged,
    get_defanging_algorithm_ref, get_refanging_transform_type,
    get_refanging_transform.
  rewrite !Hget by (unfold binding_fields; repeat constructor).
  unfold set_id, set_idref, set_appears_random, set_is_obfuscated,
    set_obfuscation_algorithm_ref, set_is_defanged,
    set_defanging_algorithm_ref, set_refanging_transform_type,
    set_refanging_transform, set_valueOf_.
  repeat first
    [ rewrite binding_get_call_if_set_ne by discriminate
    | rewrite binding_get_call_if_set_eq
    | rewrite binding_get_set_ne by discriminate ].
  rewrite !Hnew by (unfold binding_fields; repeat constructor).
  rewrite !unset_or_self. reflexivity.
Qed.

(** X4: a property of a subclass whose value was stored by the setter
    comes back from [to_obj] followed by [from_obj] with the same class,
    value and identity, obfuscation and defanging fields, and with
    [datatype] [None].  A new binding object is assumed to have none of
    the attributes set, the mixin to leave them alone,
    [denormalize_from_xml] to undo [normalize_to_xml] on the serialized
    value, and, for [DateTime], [dateutil.parser.parse] to read back the
    ISO-8601 text of the stored timestamps. *)
Theorem obj_roundtrip_fields (p : BaseProperty) (v0 sv : pyval) :
  (forall bc k, k ∈ binding_fields -> binding_get k (binding_new bc) = VNone) ->
  (forall pf o k, k ∈ binding_fields ->
     binding_get k (PatternFieldGroup_to_obj pf o) = binding_get k o) ->
  cls p <> Cls.BaseProperty ->
  base_name_bound (cls p) = true ->
  parsed_value (cls p) v0 = Ok (value p) ->
  serialized_value p = Ok sv ->
  denormalize_from_xml (normalize_to_xml sv) = sv ->
  (cls p = Cls.DateTime -> forall d, In d (timestamps (value p)) ->
     dateutil_parser_parse (VStr (isoformat d)) = Ok d) ->
  exists q, obj_roundtrip p = Ok (Some q) /\
    cls q = cls p /\ value q = value p /\
    id_ q = id_ p /\ idref q = idref p /\
    appears_random q = appears_random p /\
    is_obfuscated q = is_obfuscated p /\
    obfuscation_algorithm_ref q = obfuscation_algorithm_ref p /\
    is_defanged q = is_defanged p /\
    defanging_algorithm_ref q = defanging_algorithm_ref p /\
    refanging_transform_type q = refanging_transform_type p /\
    refanging_transform q = refanging_transform p /\
    datatype q = VNone.
Proof.
  intros Hnew Hframe Hc Hb Hp Hs Hnorm Ht.
  destruct (obj_roundtrip_result p v0 sv Hnew Hframe Hc Hb Hp Hs Hnorm Ht)
    as (n & _ & Hrt).
  eexists. split; [exact Hrt | ]. repeat split.
Qed.

(** What [to_dict] followed by [from_dict] returns for a property that
    is not plain. *)
Lemma dict_roundtrip_result (p : BaseProperty) (m : dict) (v0 : pyval) :
  (forall pf (d : dict) k, k ∈ base_keys ->
     PatternFieldGroup_to_dict pf d !! k = d !! k) ->
  to_dict p = Ok (Mapping m) ->
  m <> ∅ ->
  base_name_bound (cls p) = true ->
  parsed_value (cls p) v0 = Ok (value p) ->
  (cls p = Cls.DateTime -> forall d, In d (timestamps (value p)) ->
     dateutil_parser_parse (VStr (isoformat d)) = Ok d) ->
  dict_roundtrip p =
  Ok (Some (mk_BaseProperty (cls p) (value p) (id_ p) (idref p) VNone
              (appears_random p) (is_obfuscated p)
              (obfuscation_algorithm_ref p) (is_defanged p)
              (defanging_algorithm_ref p) (refanging_transform_type p)
              (refanging_transform p)
              (PatternFieldGroup_from_dict m PatternFieldGroup___init__))).
Proof.
  intros Hframe Hto Hm Hb Hp Ht.
  destruct (serialized_value_parsed (cls p) v0 (value p) p Hp eq_refl eq_refl)
    as [sv Hs].
  destruct (to_dict_Mapping_inv p m Hto)
    as (base & Hbase & Hdt & Hid & Hidref & Har & Hio & Hoar & Hidf & Hdar
        & Hrtt & Hrt & Hval).
  assert (Hget : forall k, k ∈ base_keys -> dict_get m k = default VNone (base !! k)).
  { intros k Hk. unfold dict_get. rewrite Hbase, Hframe by exact Hk. reflexivity. }
  unfold dict_roundtrip. rewrite Hto. simpl.
  rewrite (from_dict_mapping (cls p) m (value p) Hm Hb).
  2:{ rewrite Hget by (unfold base_keys; repeat constructor).
      rewrite Hval, Hs. destruct (is_None (value p)) eqn:Hnone; simpl.
      - apply is_None_spec in Hnone. rewrite Hnone. apply parsed_value_None.
      - apply (reparse_own_serialized p v0 sv Hp Hs Ht). }
  rewrite !Hget by (unfold base_keys; repeat constructor).
  rewrite Hdt, Hid, Hidref, Har, Hio, Hoar, Hidf, Hdar, Hrtt, Hrt.
  rewrite !default_entry_if_set. reflexivity.
Qed.

(** X5: a property that is not plain, whose value was stored by the
    setter, comes back from [to_dict] followed by [from_dict] with the
    same class, value and identity, obfuscation and defanging fields,
    and with [datatype] [None].  The mixin is assumed to leave the keys
    of this module alone, and, for [DateTime], [dateutil.parser.parse]
    to read back the ISO-8601 text of the stored timestamps. *)
Theorem dict_roundtrip_fields (p : BaseProperty) (m : dict) (v0 : pyval) :
  (forall pf (d : dict) k, k ∈ base_keys ->
     PatternFieldGroup_to_dict pf d !! k = d !! k) ->
  to_dict p = Ok (Mapping m) ->
  m <> ∅ ->
  base_name_bound (cls p) = true ->
  parsed_value (cls p) v0 = Ok (value p) ->
  (cls p = Cls.DateTime -> forall d, In d (timestamps (value p)) ->
     dateutil_parser_parse (VStr (isoformat d)) = Ok d) ->
  exists q, dict_roundtrip p = Ok (Some q) /\
    cls q = cls p /\ value q = value p /\
    id_ q = id_ p /\ idref q = idref p /\
    appears_random q = appears_random p /\
    is_obfuscated q = is_obfuscated p /\
    obfuscation_algorithm_ref q = obfuscation_algorithm_ref p /\
    is_defanged q = is_defanged p /\
    defanging_algorithm_ref q = defanging_algorithm_ref p /\
    refanging_transform_type q = refanging_transform_type p /\
    refanging_transform q = refanging_transform p /\
    datatype q = VNone.
Proof.
  intros Hframe Hto Hm Hb Hp Ht.
  eexists. split; [apply (dict_roundtrip_result p m v0 Hframe Hto Hm Hb Hp Ht) | ].
  repeat split.
Qed.

Lemma eq_datatype_differs (a b : BaseProperty) :
  py_eq (datatype a) (datatype b) = false ->
  __eq__ a (PyProperty b) = Ok false.
Proof.
  intros Hd. unfold __eq__. rewrite Hd, !andb_false_r. reflexivity.
Qed.

(** X6: a property that is not plain and carries a [datatype] tag does
    not equal what [to_dict] followed by [from_dict] makes of it, in
    either direction: the round trip drops the tag and [__eq__]
    compares it.  Same assumptions as for the round trip of the
    fields. *)
Theorem dict_roundtrip_unequal (p : BaseProperty) (m : dict) (v0 : pyval)
    (tag : string) :
  (forall pf (d : dict) k, k ∈ base_keys ->
     PatternFieldGroup_to_dict pf d !! k = d !! k) ->
  to_dict p = Ok (Mapping m) ->
  m <> ∅ ->
  base_name_bound (cls p) = true ->
  parsed_value (cls p) v0 = Ok (value p) ->
  (cls p = Cls.DateTime -> forall d, In d (timestamps (value p)) ->
     dateutil_parser_parse (VStr (isoformat d)) = Ok d) ->
  datatype p = VStr tag ->
  exists q, dict_roundtrip p = Ok (Some q) /\
    py_equals (PyProperty q) (PyProperty p) = Ok false /\
    py_equals (PyProperty p) (PyProperty q) = Ok false.
Proof.
  intros Hframe Hto Hm Hb Hp Ht Htag.
  eexists. split; [apply (dict_roundtrip_result p m v0 Hframe Hto Hm Hb Hp Ht) | ].
  split; apply eq_datatype_differs; simpl; rewrite Htag; reflexivity.
Qed.

(** ** What a constructor returns *)

(** X13: a constructor that returns gives an instance of its class
    that carries the class's [datatype] tag and no other metadata: the
    identity, obfuscation and defanging fields are all [None] and the
    pattern fields are those of a new entity, so the instance is plain
    when the mixin is plain on a new entity. *)
Theorem constructed_property (c : Cls.t) (args : list pyval)
    (kwargs : list (string * pyval)) (p : BaseProperty) :
  __init__ c args kwargs = Ok p ->
  cls p = c /\ datatype p = init_datatype c /\
  id_ p = VNone /\ idref p = VNone /\ appears_random p = VNone /\
  is_obfuscated p = VNone /\ obfuscation_algorithm_ref p = VNone /\
  is_defanged p = VNone /\ defanging_algorithm_ref p = VNone /\
  refanging_transform_type p = VNone /\ refanging_transform p = VNone /\
  pattern p = PatternFieldGroup___init__ /\
  is_plain p = PatternFieldGroup_is_plain PatternFieldGroup___init__.
Proof.
  intros Hinit.
  destruct (init_inv c args kwargs p Hinit) as (_ & v0 & pv & _ & _ & ->).
  repeat split.
Qed.

(** ** The registry *)

(** X9: [BINDING_CLASS_MAPPING] inverts [_get_binding_class]: the
    binding class of every subclass is mapped back to that subclass.
    Every binding class has an entry, and the one entry that does not
    come from a subclass's binding class maps [SimpleHashValueType] to
    [HexBinary]. *)
Theorem registry_inverts_binding_class (c : Cls.t) (bc : binding_class) :
  _get_binding_class c = Ok bc ->
  BINDING_CLASS_MAPPING bc = Some c /\
  (forall k, is_Some (BINDING_CLASS_MAPPING k)) /\
  (forall k c', BINDING_CLASS_MAPPING k = Some c' ->
     _get_binding_class c' = Ok k \/
     (k = SimpleHashValueType /\ c' = Cls.HexBinary)).
Proof.
  intros Hbc. split; [ | split].
  - destruct c; try discriminate Hbc; injection Hbc as <-; reflexivity.
  - intros k. destruct k; eexists; reflexivity.
  - intros k c' Hk.
    destruct k; vm_compute in Hk; injection Hk as <-;
      first [left; reflexivity | right; split; reflexivity].
Qed.

(** ** A plain property and its map form *)

Lemma map_raising_pure (l : list pyval) : map_raising (fun v => Ok v) l = Ok l.
Proof.
  induction l as [ | x l IH]; [reflexivity | ]. simpl. rewrite IH. reflexivity.
Qed.

Lemma serialized_value_identity (p : BaseProperty) :
  cls p <> Cls.DateTime -> serialized_value p = Ok (value p).
Proof.
  intros Hc. unfold serialized_value.
  assert (Hs : _serialize_value (cls p) = fun v => Ok v).
  { destruct (cls p); try reflexivity. contradiction. }
  rewrite Hs. destruct (value p) as [ | | | | | | l]; try reflexivity.
  rewrite map_raising_pure. reflexivity.
Qed.

(** X14: a plain property of any class but [DateTime] whose value holds
    no NaN equals its own map form: [to_dict] returns the stored value
    itself, and the property compares equal to it.  With the value on
    the left of [==] the answer is the same, unless the value is a
    timestamp, whose own comparison answers [False]. *)
Theorem plain_equals_own_map_form (p : BaseProperty) :
  cls p <> Cls.DateTime ->
  is_plain p = true ->
  nan_free (value p) = true ->
  to_dict p = Ok (Scalar (value p)) /\
  py_equals (PyProperty p) (PyValue (value p)) = Ok true /\
  py_equals (PyValue (value p)) (PyProperty p) =
    Ok (negb (is_datetime (value p))).
Proof.
  intros Hc Hplain Hnan. split; [ | split].
  - unfold to_dict. rewrite Hplain, (serialized_value_identity p Hc). reflexivity.
  - simpl. rewrite Hplain, (py_eq_refl _ Hnan). reflexivity.
  - assert (Heq : __eq__ p (PyValue (value p)) = Ok true).
    { simpl. rewrite Hplain, (py_eq_refl _ Hnan). reflexivity. }
    unfold py_equals. destruct (value p); try exact Heq. reflexivity.
Qed.

End PropertyFacts.

(** * The module run in the concrete setting *)

#[local] Existing Instance spec_PatternFieldGroup.
#[local] Existing Instance plain_Environment.

(** The modelled mixin leaves the keys of this module alone. *)
Lemma spec_to_dict_frame (pf : pattern_attrs) (d : dict) (k : string) :
  k ∈ base_keys -> pattern_attrs_to_dict pf d !! k = d !! k.
Proof.
  intros Hk. unfold base_keys in Hk. unfold pattern_attrs_to_dict.
  repeat (apply elem_of_cons in Hk as [-> | Hk];
          [rewrite !put_if_set_ne by discriminate; reflexivity | ]).
  apply elem_of_nil in Hk. destruct Hk.
Qed.

(** With none of its fields set it adds nothing. *)
Lemma spec_to_dict_init (d : dict) :
  pattern_attrs_to_dict (mk_pattern_attrs VNone VNone VNone VNone VNone VNone) d = d.
Proof. reflexivity. Qed.



(** ** Equality *)

(** C1, refuted as stated: [String("x")] and [AnyURI("x")] agree on
    the value and on every identity, obfuscation, defanging and pattern
    field, and differ in [datatype] only; [__eq__] returns [False]. *)
Lemma eq_depends_on_datatype :
  __init__ Cls.String [VStr "x"] [] = Ok (new_instance Cls.String (VStr "x")) /\
  __init__ Cls.AnyURI [VStr "x"] [] = Ok (new_instance Cls.AnyURI (VStr "x")) /\
  agree_except_datatype
    (new_instance Cls.String (VStr "x")) (new_instance Cls.AnyURI (VStr "x")) = true /\
  __eq__ (new_instance Cls.String (VStr "x"))
    (PyProperty (new_instance Cls.AnyURI (VStr "x"))) = Ok false.
Proof. repeat split; reflexivity. Qed.

(** ** Construction *)

(** C7, at the stand-in parser, which rejects ["not-a-date"]. *)
Lemma coercion_failures_witness :
  dateutil_parser_parse (VStr "not-a-date") = Raise ValueError /\
  __init__ Cls.Integer [VStr "not-a-number"] [] = Raise ValueError /\
  __init__ Cls.DateTime [VStr "not-a-date"] [] = Raise ValueError /\
  exists p, __init__ Cls.DateTime [VNone] [] = Ok p /\ value p = VNone.
Proof.
  split; [reflexivity | ].
  apply coercion_failures. reflexivity.
Defined.

(** ** Absent input *)

(** C6, at [UnsignedInteger] (whose constructor cannot run) and [None]. *)
Lemma from_falsy_is_None_witness :
  from_dict Cls.UnsignedInteger (Scalar VNone) = Ok None /\
  from_obj Cls.UnsignedInteger (ObjValue VNone) = Ok None.
Proof.
  apply (from_falsy_is_None Cls.UnsignedInteger (Scalar VNone) (ObjValue VNone));
    reflexivity.
Defined.

(** ** The map form *)

(** C5, refuted as stated: the constructor takes no [id_] keyword, so
    [String("hello", id_="x")] raises [TypeError] and there is nothing
    to serialize. *)
Lemma init_rejects_id_keyword :
  __init__ Cls.String [VStr "hello"] [("id_", VStr "x")] = Raise TypeError.
Proof. reflexivity. Qed.

(** C5, at [String("hello")] with [id_] set to ["x"]. *)
Lemma to_dict_shape_witness :
  is_plain (with_id_ (VStr "x") (new_instance Cls.String (VStr "hello"))) = false /\
  exists m : dict,
    to_dict (with_id_ (VStr "x") (new_instance Cls.String (VStr "hello")))
      = Ok (Mapping m) /\
    m !! "value" = Some (VStr "hello") /\
    m !! "id" = Some (VStr "x") /\
    m !! "idref" = None /\
    m !! "datatype" = None.
Proof.
  split; [reflexivity | ].
  destruct (to_dict_shape (PFG := spec_PatternFieldGroup)
              (with_id_ (VStr "x") (new_instance Cls.String (VStr "hello")))
              (VStr "hello") eq_refl spec_to_dict_frame spec_to_dict_init eq_refl)
    as (_ & Hmap & _).
  destruct (Hmap eq_refl)
    as (m & Hm & Hv & Hid & Hidref & _ & _ & _ & _ & _ & _ & _ & Hdt).
  exists m. repeat split; assumption.
Defined.

(** C10, at [String("")]. *)
Lemma from_dict_falsy_scalar_witness :
  truthy (VStr "") = false /\
  from_dict Cls.String (Scalar (VStr "")) = Ok None /\
  dict_roundtrip (new_instance Cls.String (VStr "")) = Ok None.
Proof.
  split; [reflexivity | ].
  destruct (from_dict_falsy_scalar (PFG := spec_PatternFieldGroup)
              Cls.String (VStr "")
              (new_instance Cls.String (VStr "")) eq_refl eq_refl eq_refl)
    as (Hfd & Hrt & _).
  split; assumption.
Defined.

(** ** Round trips *)

(** C2, refuted as stated: [Integer(0)] serializes to the bare [0],
    which [from_dict] takes for an absent property and answers with
    [None]; and [None == Integer(0)] is [False]. *)
Lemma dict_roundtrip_falsy_unequal :
  __init__ Cls.Integer [VInt 0] [] = Ok (new_instance Cls.Integer (VInt 0)) /\
  to_dict (new_instance Cls.Integer (VInt 0)) = Ok (Scalar (VInt 0)) /\
  from_dict Cls.Integer (Scalar (VInt 0)) = Ok None /\
  py_equals (as_pyobj None) (PyProperty (new_instance Cls.Integer (VInt 0))) = Ok false.
Proof. repeat split; reflexivity. Qed.

(** C2, at [DateTime("2014-03-07T12:00:05")]. *)
Lemma dict_roundtrip_equal_witness :
  __init__ Cls.DateTime [VStr "2014-03-07T12:00:05"] []
    = Ok (new_instance Cls.DateTime (VDateTime (mk_datetime 2014 3 7 12 0 5 0))) /\
  exists q,
    dict_roundtrip (new_instance Cls.DateTime (VDateTime (mk_datetime 2014 3 7 12 0 5 0)))
      = Ok (Some q) /\
    py_equals (as_pyobj (Some q))
      (PyProperty (new_instance Cls.DateTime (VDateTime (mk_datetime 2014 3 7 12 0 5 0))))
      = Ok true.
Proof.
  split; [reflexivity | ].
  apply (dict_roundtrip_equal Cls.DateTime (VStr "2014-03-07T12:00:05")
           (new_instance Cls.DateTime (VDateTime (mk_datetime 2014 3 7 12 0 5 0)))
           (VStr "2014-03-07T12:00:05")).
  - reflexivity.
  - reflexivity.
  - reflexivity.
  - reflexivity.
  - intros _ d [<- | []]. reflexivity.
  - reflexivity.
  - reflexivity.
  - reflexivity.
Defined.

(** Why the value must hold no NaN: [Double(float("nan"))] serializes
    to the truthy NaN, [from_dict] rebuilds the same property, and the
    comparison of the two is [False], as is that of the property with
    itself. *)
Lemma nan_roundtrip_unequal :
  __init__ Cls.Double [VFloat FNaN] [] = Ok (new_instance Cls.Double (VFloat FNaN)) /\
  dict_roundtrip (new_instance Cls.Double (VFloat FNaN))
    = Ok (Some (new_instance Cls.Double (VFloat FNaN))) /\
  py_equals (PyProperty (new_instance Cls.Double (VFloat FNaN)))
    (PyProperty (new_instance Cls.Double (VFloat FNaN))) = Ok false.
Proof. repeat split; reflexivity. Qed.

(** ** The datatype of a deserialized property *)



(** ** Further properties, in the concrete setting *)

(** X1, at [Integer(" 42 ")]: the stored 42 is assigned again. *)
Lemma value_setter_idempotent_witness :
  value_setter (new_instance Cls.Integer VNone) (VStr " 42 ")
    = Ok (new_instance Cls.Integer (VInt 42)) /\
  value_setter (new_instance Cls.Integer (VInt 42)) (VInt 42)
    = Ok (new_instance Cls.Integer (VInt 42)).
Proof.
  split; [reflexivity | ].
  apply (value_setter_idempotent (PFG := spec_PatternFieldGroup)
           (new_instance Cls.Integer VNone) (new_instance Cls.Integer (VInt 42))
           (VStr " 42 ")).
  reflexivity.
Defined.

(** X3, at [DateTime] holding a list of a timestamp and [None]. *)
Lemma serialization_succeeds_witness :
  exists d,
    to_dict (new_instance Cls.DateTime
               (VList [VDateTime (mk_datetime 2014 3 7 12 0 5 0); VNone]))
      = Ok d.
Proof.
  destruct (serialization_succeeds (PFG := spec_PatternFieldGroup)
              (new_instance Cls.DateTime
                 (VList [VDateTime (mk_datetime 2014 3 7 12 0 5 0); VNone]))
              (VList [VStr "2014-03-07T12:00:05"; VStr ""]))
    as (_ & Hd & _); [vm_compute; reflexivity | exact Hd].
Defined.

Lemma spec_binding_new_unset (bc : binding_class) (k : string) :
  k ∈ binding_fields -> binding_get k (binding_new bc) = VNone.
Proof. reflexivity. Qed.

Lemma spec_to_obj_frame (pf : pattern_attrs) (o : binding_obj) (k : string) :
  k ∈ binding_fields ->
  binding_get k (pattern_attrs_to_obj pf o) = binding_get k o.
Proof.
  intros Hk. unfold binding_fields in Hk.
  unfold binding_get, pattern_attrs_to_obj, pattern_attrs_to_dict. simpl.
  repeat (apply elem_of_cons in Hk as [-> | Hk];
          [rewrite !put_if_set_ne by discriminate; reflexivity | ]).
  apply elem_of_nil in Hk. destruct Hk.
Qed.

(** X4, at [String("hello")] with [id_] set to ["x"]. *)
Lemma obj_roundtrip_fields_witness :
  exists q,
    obj_roundtrip (with_id_ (VStr "x") (new_instance Cls.String (VStr "hello")))
      = Ok (Some q) /\
    value q = VStr "hello" /\ id_ q = VStr "x" /\ datatype q = VNone.
Proof.
  destruct (obj_roundtrip_fields (PFG := spec_PatternFieldGroup)
              (Env := plain_Environment)
              (with_id_ (VStr "x") (new_instance Cls.String (VStr "hello")))
              (VStr "hello") (VStr "hello")
              spec_binding_new_unset spec_to_obj_frame)
    as (q & Hq & _ & Hv & Hid & _ & _ & _ & _ & _ & _ & _ & _ & Hdt);
    [discriminate | reflexivity | reflexivity | reflexivity | reflexivity
    | discriminate | ].
  exists q. repeat split; assumption.
Defined.

Lemma example_mapping_nonempty :
  ({[ "value" := VStr "hello"; "id" := VStr "x" ]} : dict) <> ∅.
Proof.
  intros Hm. apply (f_equal (fun m : dict => m !! "id")) in Hm.
  vm_compute in Hm. discriminate Hm.
Qed.

Lemma example_to_dict :
  to_dict (with_id_ (VStr "x") (new_instance Cls.String (VStr "hello")))
  = Ok (Mapping {[ "value" := VStr "hello"; "id" := VStr "x" ]}).
Proof. unfold to_dict. simpl. f_equal. Qed.

(** X5, at [String("hello")] with [id_] set to ["x"]. *)
Lemma dict_roundtrip_fields_witness :
  exists q,
    dict_roundtrip (with_id_ (VStr "x") (new_instance Cls.String (VStr "hello")))
      = Ok (Some q) /\
    value q = VStr "hello" /\ id_ q = VStr "x" /\ datatype q = VNone.
Proof.
  destruct (dict_roundtrip_fields (PFG := spec_PatternFieldGroup)
              (Env := plain_Environment)
              (with_id_ (VStr "x") (new_instance Cls.String (VStr "hello")))
              {[ "value" := VStr "hello"; "id" := VStr "x" ]}
              (VStr "hello")
              spec_to_dict_frame example_to_dict example_mapping_nonempty)
    as (q & Hq & _ & Hv & Hid & _ & _ & _ & _ & _ & _ & _ & _ & Hdt);
    [reflexivity | reflexivity | discriminate | ].
  exists q. repeat split; assumption.
Defined.

(** X6, at [String("hello")] with [id_] set to ["x"]. *)
Lemma dict_roundtrip_unequal_witness :
  exists q,
    dict_roundtrip (with_id_ (VStr "x") (new_instance Cls.String (VStr "hello")))
      = Ok (Some q) /\
    py_equals (PyProperty q)
      (PyProperty (with_id_ (VStr "x") (new_instance Cls.String (VStr "hello"))))
      = Ok false.
Proof.
  destruct (dict_roundtrip_unequal (PFG := spec_PatternFieldGroup)
              (Env := plain_Environment)
              (with_id_ (VStr "x") (new_instance Cls.String (VStr "hello")))
              {[ "value" := VStr "hello"; "id" := VStr "x" ]}
              (VStr "hello") "string"
              spec_to_dict_frame example_to_dict example_mapping_nonempty)
    as (q & Hq & Hqp & _);
    [reflexivity | reflexivity | discriminate | reflexivity | ].
  exists q. split; assumption.
Defined.


(** X8, at [String(None)]. *)
Lemma falsy_property_roundtrip_witness :
  __nonzero__ (new_instance Cls.String VNone) = false /\
  to_dict (new_instance Cls.String VNone) = Ok (Scalar VNone) /\
  dict_roundtrip (new_instance Cls.String VNone) = Ok None.
Proof.
  split; [reflexivity | ].
  apply (falsy_property_roundtrip (PFG := spec_PatternFieldGroup)
           (new_instance Cls.String VNone)).
  reflexivity.
Defined.

(** X9, at [DateTime]. *)
Lemma registry_inverts_binding_class_witness :
  BINDING_CLASS_MAPPING DateTimeObjectPropertyType = Some Cls.DateTime.
Proof.
  apply (registry_inverts_binding_class Cls.DateTime DateTimeObjectPropertyType).
  reflexivity.
Defined.

(** X10, at [NonNegativeInteger], the bare ["42"] and an empty node. *)
Lemma misspelt_classes_cannot_deserialize_witness :
  from_dict Cls.NonNegativeInteger (Scalar (VStr "42")) = Raise NameError /\
  from_obj Cls.NonNegativeInteger (ObjNode (mk_binding_obj ∅)) = Raise NameError.
Proof.
  apply (misspelt_classes_cannot_deserialize (PFG := spec_PatternFieldGroup)
           Cls.NonNegativeInteger (Scalar (VStr "42"))
           (ObjNode (mk_binding_obj ∅)));
    [right; reflexivity | reflexivity | reflexivity].
Defined.

(** X11, at [Integer] and the texts ["42"] and ["x"]. *)
Lemma from_dict_scalar_is_constructor_witness :
  from_dict Cls.Integer (Scalar (VStr "42"))
    = Ok (Some (new_instance Cls.Integer (VInt 42))) /\
  from_dict Cls.Integer (Scalar (VStr "x")) = Raise ValueError.
Proof.
  split.
  - rewrite (from_dict_scalar_is_constructor (PFG := spec_PatternFieldGroup)
               Cls.Integer (VStr "42") eq_refl).
    reflexivity.
  - rewrite (from_dict_scalar_is_constructor (PFG := spec_PatternFieldGroup)
               Cls.Integer (VStr "x") eq_refl).
    reflexivity.
Defined.

(** X12, at [Integer("42")]. *)
Lemma int_of_integer_property_witness :
  __int__ (new_instance Cls.Integer (VInt 42)) = Ok (VInt 42).
Proof.
  apply (int_of_integer_property (PFG := spec_PatternFieldGroup)
           Cls.Integer (VStr "42") (new_instance Cls.Integer (VInt 42)));
    [left; reflexivity | reflexivity | reflexivity].
Defined.

(** X13, at [AnyURI("http://example.com")]. *)
Lemma constructed_property_witness :
  datatype (new_instance Cls.AnyURI (VStr "http://example.com")) = VStr "anyURI" /\
  is_plain (new_instance Cls.AnyURI (VStr "http://example.com")) = true.
Proof.
  destruct (constructed_property (PFG := spec_PatternFieldGroup)
              Cls.AnyURI [VStr "http://example.com"] []
              (new_instance Cls.AnyURI (VStr "http://example.com")) eq_refl)
    as (_ & Hdt & _ & _ & _ & _ & _ & _ & _ & _ & _ & _ & Hplain).
  split; [exact Hdt | rewrite Hplain; reflexivity].
Defined.

(** X14, at [String("hello")]. *)
Lemma plain_equals_own_map_form_witness :
  to_dict (new_instance Cls.String (VStr "hello")) = Ok (Scalar (VStr "hello")) /\
  py_equals (PyProperty (new_instance Cls.String (VStr "hello")))
    (PyValue (VStr "hello")) = Ok true.
Proof.
  destruct (plain_equals_own_map_form (PFG := spec_PatternFieldGroup)
              (new_instance Cls.String (VStr "hello")))
    as (Hd & Heq & _); [discriminate | reflexivity | reflexivity | ].
  split; assumption.
Defined.
